(** * PlaceIntel Pro intelligence service

    A shallow embedding of [src/intelligence/app.py]: the four engines
    ([BusinessIntelligenceEngine], [RealTimeContextEngine],
    [AccessibilityIntelligenceEngine], [UnifiedRecommendationEngine]) and the
    [enhance_place_intelligence] endpoint that runs them.

    Modelling choices.
    - Python floats are exact rationals ([Q]); [round(x, n)] rounds half to
      even at [n] decimals.
    - A Python [str] is a [string] holding its UTF-8 bytes; substring
      containment on code points and on UTF-8 bytes coincide.
    - The request body is a JSON value ([json]); operations Python checks at
      run time ([.get], [[0]], [.lower()]) raise in the [result] monad.
    - The dicts built by the engines have fixed keys and are records.
    - Every outcome of [random], [time.time] and [datetime.now] during one
      request is a field of [World]. *)

From Stdlib Require Import ZArith QArith Qround String Ascii List Bool Lia Lqa.
From Stdlib Require Import DecimalString.
Import ListNotations.

#[local] Set Warnings "-register-all".

Open Scope string_scope.
Open Scope list_scope.
Open Scope Q_scope.

(** ** JSON values and Python's dynamic operations *)

Inductive json : Type :=
| JNull
| JBool (b : bool)
| JNum (q : Q)
| JStr (s : string)
| JArr (items : list json)
| JObj (fields : list (string * json)).

Inductive exn : Type := AttributeError | TypeError | KeyError | IndexError.

Inductive result (A : Type) : Type :=
| Ok (a : A)
| Raise (e : exn).

Arguments Ok {A} a.
Arguments Raise {A} e.

Definition bind {A B : Type} (m : result A) (k : A -> result B) : result B :=
  match m with
  | Ok a => k a
  | Raise e => Raise e
  end.

Notation "x <- m ;; k" := (bind m (fun x => k))
  (at level 61, m at next level, right associativity).

(** Python's built-in string and float operations that the service calls.
    They belong to the interpreter, not to the repository, so the engines
    are parameterised by them. *)
Class PyBuiltins : Type := {
  str_lower : string -> string;        (* str.lower() *)
  str_split : string -> list string;   (* str.split() *)
  str_title : string -> string;        (* str.title() *)
  float_str : Q -> string              (* format of a float in an f-string *)
}.

(** [needle in hay] on strings. *)
Fixpoint contains (needle hay : string) : bool :=
  prefix needle hay ||
  match hay with
  | EmptyString => false
  | String _ rest => contains needle rest
  end.

(** [bool(x)]: Python truthiness of a JSON value. *)
Definition truthy (x : json) : bool :=
  match x with
  | JNull => false
  | JBool b => b
  | JNum q => negb (Qeq_bool q 0)
  | JStr s => negb (s =? "")%string
  | JArr items => match items with [] => false | _ => true end
  | JObj fields => match fields with [] => false | _ => true end
  end.

(** A dict literal or a parsed JSON object, as key/value pairs. *)
Fixpoint dict_lookup {A : Type} (d : list (string * A)) (k : string) : option A :=
  match d with
  | [] => None
  | (k', v) :: rest => if (k' =? k)%string then Some v else dict_lookup rest k
  end.

(** [d.get(k, default)] on a dict. *)
Definition dict_get {A : Type} (d : list (string * A)) (k : string) (default : A) : A :=
  match dict_lookup d k with
  | Some v => v
  | None => default
  end.

(** [x.get(k, default)] on a value of unknown type: only dicts have [get]. *)
Definition py_get (x : json) (k : string) (default : json) : result json :=
  match x with
  | JObj fields => Ok (dict_get fields k default)
  | _ => Raise AttributeError
  end.

(** The first code point of a UTF-8 string: a leading byte and the
    continuation bytes (10xxxxxx) that follow it. *)
Fixpoint continuation_bytes (s : string) : string :=
  match s with
  | String c rest =>
      if ((128 <=? nat_of_ascii c) && (nat_of_ascii c <? 192))%nat
      then String c (continuation_bytes rest) else EmptyString
  | EmptyString => EmptyString
  end.

Definition first_char (s : string) : string :=
  match s with
  | String c rest => String c (continuation_bytes rest)
  | EmptyString => EmptyString
  end.

(** [x[0]]. *)
Definition py_getitem0 (x : json) : result json :=
  match x with
  | JArr (item :: _) => Ok item
  | JArr [] => Raise IndexError
  | JStr EmptyString => Raise IndexError
  | JStr s => Ok (JStr (first_char s))
  | JObj _ => Raise KeyError
  | JNull | JBool _ | JNum _ => Raise TypeError
  end.

(** [x.lower()] and [x.split()]: only strings have these methods. *)
Definition py_lower `{PyBuiltins} (x : json) : result string :=
  match x with
  | JStr s => Ok (str_lower s)
  | _ => Raise AttributeError
  end.

Definition py_split `{PyBuiltins} (x : json) : result (list string) :=
  match x with
  | JStr s => Ok (str_split s)
  | _ => Raise AttributeError
  end.

(** ** Numbers *)

(** [max(a, b)] and [min(a, b)]: the first argument wins a tie. *)
Definition py_max (a b : Q) : Q := if Qlt_le_dec a b then b else a.
Definition py_min (a b : Q) : Q := if Qlt_le_dec b a then b else a.

(** Nearest integer, ties to the even one. *)
Definition round_half_even (x : Q) : Z :=
  let f := Qfloor x in
  let r := x - inject_Z f in
  if Qlt_le_dec r (1 # 2) then f
  else if Qlt_le_dec (1 # 2) r then (f + 1)%Z
  else if Z.even f then f else (f + 1)%Z.

(** [round(x, ndigits)]. *)
Definition py_round (x : Q) (ndigits : nat) : Q :=
  let m := inject_Z (10 ^ Z.of_nat ndigits) in
  inject_Z (round_half_even (x * m)) / m.

(** [random.uniform(a, b)] is [a + (b - a) * random.random()]; [u] is the
    outcome of [random.random()], a number in [0, 1). *)
Definition uniform (a b u : Q) : Q := a + (b - a) * u.

(** [random.choice(seq)] is [seq[i]] for a random index [i] below
    [len(seq)]; [i] is the outcome of the underlying draw. *)
Definition random_choice {A : Type} (seq : list A) (i : nat) (default : A) : A :=
  nth (i mod length seq) seq default.

(** [a <= x <= b] on the hour of the day. *)
Definition between (a x b : Z) : bool := ((a <=? x) && (x <=? b))%Z.

(** [x in [h1, h2, ...]] on hours. *)
Definition hour_in (x : Z) (hours : list Z) : bool := existsb (Z.eqb x) hours.

(** ** The world of one request *)

(** Everything one request reads from outside: the outcomes of the random
    generator, one field per call site, and the readings of the clock. *)
Record World : Type := {
  (* BusinessIntelligenceEngine *)
  u_popularity : Q;       (* random.random() behind uniform(-1.0, 2.0) *)
  u_sentiment : Q;        (* random.random() behind uniform(-0.5, 0.5) *)
  hour_business : Z;      (* datetime.now().hour in _calculate_trending_score *)
  clock_business : Q * Q; (* time.time() at the start and at the end *)
  (* RealTimeContextEngine *)
  hour_context : Z;       (* datetime.now().hour in analyze_context *)
  i_crowd : nat;          (* index drawn by random.choice in _estimate_crowd_level *)
  i_weather : nat;        (* index drawn by random.choice in _assess_weather_impact *)
  u_confidence : Q;       (* random.random() behind uniform(0.7, 0.95) *)
  utcnow_iso : string;    (* datetime.utcnow().isoformat() *)
  clock_context : Q * Q;
  (* AccessibilityIntelligenceEngine *)
  u_accessibility : Q;    (* random.random() behind uniform(-1.0, 1.0) *)
  c_ramp_access : bool;   (* random.choice([True, False]) for each feature *)
  c_elevator : bool;
  c_accessible_restrooms : bool;
  c_wide_entrances : bool;
  c_accessible_parking : bool;
  clock_accessibility : Q * Q;
  (* UnifiedRecommendationEngine and the endpoint *)
  clock_recommendations : Q * Q;
  clock_endpoint : Q * Q
}.

Definition unit_interval (u : Q) : Prop := 0 <= u /\ u < 1.

(** The random generator returns numbers of [0, 1). *)
Definition valid_world (w : World) : Prop :=
  unit_interval (u_popularity w) /\ unit_interval (u_sentiment w) /\
  unit_interval (u_confidence w) /\ unit_interval (u_accessibility w).

(** [(time.time() - start_time) * 1000]. *)
Definition elapsed_ms (clock : Q * Q) : Q := (snd clock - fst clock) * 1000.

(** ** BusinessIntelligenceEngine *)

Module BusinessIntelligenceEngine.

Record CategoryInfo : Type := {
  info_specialties : list string;
  info_ideal_for : list string;
  info_atmosphere : string;
  info_price_range : string
}.

Definition category_insights : list (string * CategoryInfo) :=
  [ ("coffee",
     {| info_specialties := ["artisanal coffee"; "espresso"; "latte art"];
        info_ideal_for := ["remote work"; "meetings"; "studying"];
        info_atmosphere := "cozy";
        info_price_range := "moderate" |});
    ("restaurant",
     {| info_specialties := ["local cuisine"; "fresh ingredients"];
        info_ideal_for := ["dining"; "celebrations"; "dates"];
        info_atmosphere := "welcoming";
        info_price_range := "varied" |});
    ("gym",
     {| info_specialties := ["fitness equipment"; "personal training"];
        info_ideal_for := ["workouts"; "fitness classes"; "health"];
        info_atmosphere := "energetic";
        info_price_range := "membership" |});
    ("library",
     {| info_specialties := ["study spaces"; "books"; "quiet environment"];
        info_ideal_for := ["studying"; "research"; "reading"];
        info_atmosphere := "quiet";
        info_price_range := "free" |});
    ("shopping",
     {| info_specialties := ["retail"; "variety"; "brands"];
        info_ideal_for := ["shopping"; "browsing"; "gifts"];
        info_atmosphere := "busy";
        info_price_range := "varied" |}) ].

(** The dict [analyze_place] returns. *)
Record BusinessIntel : Type := {
  popularity_score : Q;
  sentiment_score : Q;
  specialties : list string;
  ideal_for : list string;
  price_range : string;
  atmosphere : string;
  trending_score : Q;
  processing_time_ms : Q
}.

Section Engine.
Context {py : PyBuiltins}.

Definition _get_primary_category (categories : json) : result string :=
  if negb (truthy categories) then Ok "general" else
  first <- py_getitem0 categories ;;
  name <- py_get first "name" (JStr "") ;;
  category_name <- py_lower name ;;
  Ok (if contains "coffee" category_name || contains "café" category_name
      then "coffee"
      else if contains "restaurant" category_name || contains "food" category_name
      then "restaurant"
      else if contains "gym" category_name || contains "fitness" category_name
      then "gym"
      else if contains "library" category_name
      then "library"
      else if contains "shop" category_name || contains "store" category_name
      then "shopping"
      else "general").

Definition _calculate_popularity_score
    (name categories location : json) (u : Q) : result Q :=
  let score := 5.0 in
  name_lower <- py_lower name ;;
  score <-
    (if existsb (fun brand => contains brand name_lower)
          ["starbucks"; "mcdonalds"; "subway"]
     then Ok (score + 2.0)
     else
       words <- py_split name ;;
       Ok (if (3 <? length words)%nat then score + 1.0 else score)) ;;
  score <-
    (if truthy categories then
       first <- py_getitem0 categories ;;
       cname <- py_get first "name" (JStr "") ;;
       category_name <- py_lower cname ;;
       Ok (if contains "coffee" category_name then score + 1.5
           else if contains "restaurant" category_name then score + 1.0
           else score)
     else Ok score) ;;
  let score := score + uniform (-1.0) 2.0 u in
  Ok (py_max 1.0 (py_min 10.0 score)).

Definition positive_words : list string :=
  ["best"; "premium"; "artisan"; "fresh"; "quality"; "authentic"].
Definition negative_words : list string := ["cheap"; "fast"; "quick"].

Definition category_sentiment : list (string * Q) :=
  [("coffee", 4.0); ("restaurant", 3.8); ("library", 4.2); ("gym", 3.5);
   ("shopping", 3.6)].

Definition _analyze_sentiment (name : json) (category : string) (u : Q) : result Q :=
  let sentiment := 3.5 in
  name_lower <- py_lower name ;;
  let sentiment :=
    fold_left (fun s word => if contains word name_lower then s + 0.5 else s)
              positive_words sentiment in
  let sentiment :=
    fold_left (fun s word => if contains word name_lower then s - 0.3 else s)
              negative_words sentiment in
  let base_sentiment := dict_get category_sentiment category 3.5 in
  let sentiment := (sentiment + base_sentiment) / 2 in
  let sentiment := sentiment + uniform (-0.5) 0.5 u in
  Ok (py_max 1.0 (py_min 5.0 sentiment)).

Definition trending_categories : list (string * Q) :=
  [("coffee", 8.5); ("gym", 7.8); ("restaurant", 7.0); ("library", 6.0);
   ("shopping", 6.5)].

Definition _calculate_trending_score (category : string) (hour : Z) : Q :=
  let base_score := dict_get trending_categories category 5.0 in
  let base_score :=
    if between 7 hour 9 && (category =? "coffee")%string then base_score + 1.0
    else if between 12 hour 14 && (category =? "restaurant")%string then base_score + 1.0
    else if between 18 hour 20 && (category =? "restaurant")%string then base_score + 1.0
    else base_score in
  py_max 0.0 (py_min 10.0 base_score).

Definition analyze_place (place_data : json) (w : World) : result BusinessIntel :=
  name <- py_get place_data "name" (JStr "") ;;
  categories <- py_get place_data "categories" (JArr []) ;;
  location <- py_get place_data "location" (JObj []) ;;
  primary_category <- _get_primary_category categories ;;
  popularity <- _calculate_popularity_score name categories location (u_popularity w) ;;
  sentiment <- _analyze_sentiment name primary_category (u_sentiment w) ;;
  let category_info := dict_lookup category_insights primary_category in
  let trending := _calculate_trending_score primary_category (hour_business w) in
  let processing_time := elapsed_ms (clock_business w) in
  Ok {| popularity_score := py_round popularity 1;
        sentiment_score := py_round sentiment 1;
        specialties := match category_info with Some i => info_specialties i | None => [] end;
        ideal_for := match category_info with Some i => info_ideal_for i | None => [] end;
        price_range := match category_info with Some i => info_price_range i | None => "unknown" end;
        atmosphere := match category_info with Some i => info_atmosphere i | None => "unknown" end;
        trending_score := py_round trending 1;
        processing_time_ms := py_round processing_time 2 |}.

End Engine.
End BusinessIntelligenceEngine.

(** ** RealTimeContextEngine *)

Module RealTimeContextEngine.

(** The dict [analyze_context] returns. *)
Record RealtimeContext : Type := {
  current_status : string;
  crowd_level : string;
  best_visit_times : list string;
  live_events : list string;
  estimated_wait_time : string;
  weather_impact : string;
  last_updated : string;
  confidence_score : Q;
  processing_time_ms : Q
}.

Section Engine.
Context {py : PyBuiltins}.

Definition _get_primary_category (categories : json) : result string :=
  if negb (truthy categories) then Ok "general" else
  first <- py_getitem0 categories ;;
  name <- py_get first "name" (JStr "") ;;
  py_lower name.

Definition _determine_status (category : string) (hour : Z) : string :=
  if contains "restaurant" category then
    if between 6 hour 23 then "open" else "closed"
  else if contains "coffee" category then
    if between 6 hour 20 then "open" else "closed"
  else if contains "gym" category then
    if between 5 hour 23 then "open" else "closed"
  else if contains "library" category then
    if between 8 hour 20 then "open" else "closed"
  else
    if between 9 hour 21 then "open" else "closed".

Definition _estimate_crowd_level (category : string) (hour : Z) (i : nat) : string :=
  if contains "restaurant" category then
    if hour_in hour [12; 13; 18; 19; 20]%Z then "busy"
    else if hour_in hour [11; 14; 17; 21]%Z then "moderate"
    else "quiet"
  else if contains "coffee" category then
    if hour_in hour [7; 8; 9; 14; 15]%Z then "busy"
    else if hour_in hour [10; 11; 16; 17]%Z then "moderate"
    else "quiet"
  else if contains "gym" category then
    if hour_in hour [6; 7; 17; 18; 19]%Z then "busy"
    else if hour_in hour [8; 9; 16; 20]%Z then "moderate"
    else "quiet"
  else random_choice ["quiet"; "moderate"; "busy"] i "quiet".

Definition _suggest_best_times (category : string) : list string :=
  if contains "restaurant" category then ["11:30-12:00"; "14:30-17:00"; "21:00-22:00"]
  else if contains "coffee" category then ["10:00-11:30"; "15:30-17:00"]
  else if contains "gym" category then ["10:00-16:00"; "21:00-23:00"]
  else if contains "library" category then ["9:00-11:00"; "14:00-16:00"]
  else ["10:00-12:00"; "14:00-16:00"].

Definition _detect_events (category : string) (hour : Z) : list string :=
  let events := [] in
  if contains "library" category && between 14 hour 16
  then events ++ ["study group session"]
  else if contains "gym" category && hour_in hour [18; 19]%Z
  then events ++ ["fitness class"]
  else if contains "coffee" category && hour_in hour [15; 16]%Z
  then events ++ ["afternoon networking"]
  else events.

Definition _estimate_wait_time (crowd_level : string) : string :=
  if (crowd_level =? "busy")%string then "10-15 minutes"
  else if (crowd_level =? "moderate")%string then "5-10 minutes"
  else "no wait".

Definition _assess_weather_impact (category : string) (i : nat) : string :=
  let weather_conditions := ["sunny"; "rainy"; "cloudy"] in
  let current_weather := random_choice weather_conditions i "sunny" in
  if (current_weather =? "rainy")%string && contains "outdoor" category
  then "high impact - indoor alternatives recommended"
  else if (current_weather =? "sunny")%string && contains "park" category
  then "positive impact - great weather for outdoor activities"
  else "minimal impact".

Definition analyze_context (place_data : json) (w : World) : result RealtimeContext :=
  categories <- py_get place_data "categories" (JArr []) ;;
  primary_category <- _get_primary_category categories ;;
  let current_hour := hour_context w in
  let status := _determine_status primary_category current_hour in
  let crowd := _estimate_crowd_level primary_category current_hour (i_crowd w) in
  let best_times := _suggest_best_times primary_category in
  let events := _detect_events primary_category current_hour in
  let wait_time := _estimate_wait_time crowd in
  let weather := _assess_weather_impact primary_category (i_weather w) in
  let processing_time := elapsed_ms (clock_context w) in
  Ok {| current_status := status;
        crowd_level := crowd;
        best_visit_times := best_times;
        live_events := events;
        estimated_wait_time := wait_time;
        weather_impact := weather;
        last_updated := (utcnow_iso w ++ "Z")%string;
        confidence_score := py_round (uniform 0.7 0.95 (u_confidence w)) 2;
        processing_time_ms := py_round processing_time 2 |}.

End Engine.
End RealTimeContextEngine.

(** ** AccessibilityIntelligenceEngine *)

Module AccessibilityIntelligenceEngine.

(** The seven keys of the [features] dict. *)
Record Features : Type := {
  ramp_access : bool;
  elevator : bool;
  accessible_restrooms : bool;
  braille_signage : bool;
  hearing_loop : bool;
  wide_entrances : bool;
  accessible_parking : bool
}.

Record Recommendations : Type := {
  mobility_friendly_areas : list string;
  sensory_accommodations : list string;
  cognitive_support : list string
}.

(** The dict [analyze_accessibility] returns. *)
Record AccessibilityIntel : Type := {
  wheelchair_accessible : bool;
  accessibility_score : Q;
  features : Features;
  inclusive_recommendations : Recommendations;
  processing_time_ms : Q
}.

Section Engine.
Context {py : PyBuiltins}.

Definition _calculate_accessibility_score (categories name : json) (u : Q) : result Q :=
  let base_score := 5.0 in
  if negb (truthy categories) then Ok base_score else
  first <- py_getitem0 categories ;;
  cname <- py_get first "name" (JStr "") ;;
  category_name <- py_lower cname ;;
  name_lower <- py_lower name ;;
  let base_score :=
    if existsb (fun word => contains word name_lower) ["new"; "modern"; "center"; "mall"]
    then base_score + 2.0 else base_score in
  let base_score :=
    if contains "library" category_name || contains "hospital" category_name
    then base_score + 3.0
    else if contains "restaurant" category_name && contains "chain" name_lower
    then base_score + 2.0
    else if contains "gym" category_name
    then base_score + 1.5
    else base_score in
  let base_score := base_score + uniform (-1.0) 1.0 u in
  Ok (py_max 0.0 (py_min 10.0 base_score)).

Definition _default_features (w : World) : Features :=
  {| ramp_access := c_ramp_access w;
     elevator := c_elevator w;
     accessible_restrooms := c_accessible_restrooms w;
     braille_signage := false;
     hearing_loop := false;
     wide_entrances := c_wide_entrances w;
     accessible_parking := c_accessible_parking w |}.

Definition _analyze_accessibility_features (categories : json) (w : World) : result Features :=
  if negb (truthy categories) then Ok (_default_features w) else
  first <- py_getitem0 categories ;;
  cname <- py_get first "name" (JStr "") ;;
  category_name <- py_lower cname ;;
  if contains "library" category_name then
    Ok {| ramp_access := true;
          elevator := true;
          accessible_restrooms := true;
          braille_signage := true;
          hearing_loop := true;
          wide_entrances := true;
          accessible_parking := true |}
  else if contains "restaurant" category_name then
    Ok {| ramp_access := c_ramp_access w;
          elevator := false;
          accessible_restrooms := c_accessible_restrooms w;
          braille_signage := false;
          hearing_loop := false;
          wide_entrances := c_wide_entrances w;
          accessible_parking := c_accessible_parking w |}
  else if contains "gym" category_name then
    Ok {| ramp_access := true;
          elevator := c_elevator w;
          accessible_restrooms := true;
          braille_signage := false;
          hearing_loop := false;
          wide_entrances := true;
          accessible_parking := true |}
  else Ok (_default_features w).

Definition _generate_inclusive_recommendations
    (categories : json) (features : Features) : result Recommendations :=
  let mobility := [] in
  let sensory := [] in
  let cognitive := [] in
  if negb (truthy categories) then
    Ok {| mobility_friendly_areas := mobility;
          sensory_accommodations := sensory;
          cognitive_support := cognitive |}
  else
  first <- py_getitem0 categories ;;
  cname <- py_get first "name" (JStr "") ;;
  category_name <- py_lower cname ;;
  let mobility :=
    if ramp_access features then mobility ++ ["main entrance accessible"] else mobility in
  let mobility :=
    if elevator features then mobility ++ ["all floors accessible"] else mobility in
  let mobility :=
    if accessible_restrooms features
    then mobility ++ ["accessible restroom facilities"] else mobility in
  let sensory :=
    if contains "library" category_name
    then sensory ++ ["quiet study areas available"; "adjustable lighting in reading areas"]
    else sensory in
  let sensory :=
    if hearing_loop features
    then sensory ++ ["hearing loop system available"] else sensory in
  let cognitive :=
    if contains "library" category_name
    then cognitive ++ ["clear signage and wayfinding"; "staff available for assistance"]
    else if contains "restaurant" category_name
    then cognitive ++ ["picture menus available"]
    else cognitive in
  Ok {| mobility_friendly_areas := mobility;
        sensory_accommodations := sensory;
        cognitive_support := cognitive |}.

Definition analyze_accessibility (place_data : json) (w : World) : result AccessibilityIntel :=
  categories <- py_get place_data "categories" (JArr []) ;;
  name <- py_get place_data "name" (JStr "") ;;
  score <- _calculate_accessibility_score categories name (u_accessibility w) ;;
  feats <- _analyze_accessibility_features categories w ;;
  recommendations <- _generate_inclusive_recommendations categories feats ;;
  let processing_time := elapsed_ms (clock_accessibility w) in
  Ok {| wheelchair_accessible := Qle_bool 7.0 score;
        accessibility_score := py_round score 1;
        features := feats;
        inclusive_recommendations := recommendations;
        processing_time_ms := py_round processing_time 2 |}.

End Engine.
End AccessibilityIntelligenceEngine.

(** ** UnifiedRecommendationEngine *)

Module UnifiedRecommendationEngine.

Import BusinessIntelligenceEngine RealTimeContextEngine AccessibilityIntelligenceEngine.

(** The dict [generate_recommendations] returns. *)
Record UnifiedRecommendations : Type := {
  confidence_score : Q;
  personalized_insights : list string;
  alternative_suggestions : list string;
  optimal_visit_strategy : string;
  accessibility_notes : list string;
  processing_time_ms : Q
}.

(** [sum(scores)] and [len(scores)] as floats. *)
Definition py_sum (scores : list Q) : Q := fold_left Qplus scores 0.
Definition py_len {A : Type} (l : list A) : Q := inject_Z (Z.of_nat (length l)).

(** [l[:n]]. *)
Definition slice_to {A : Type} (n : nat) (l : list A) : list A := firstn n l.

Section Engine.
Context {py : PyBuiltins}.

(** The list [scores] that [_calculate_confidence_score] collects. *)
Definition confidence_weights
    (business_intel : BusinessIntel) (realtime_context : RealtimeContext)
    (accessibility_intel : AccessibilityIntel) : list Q :=
  let scores := [] in
  let scores :=
    if Qlt_le_dec 0 (popularity_score business_intel)
    then scores ++ [0.8] else scores in
  let scores :=
    if Qlt_le_dec 0 (RealTimeContextEngine.confidence_score realtime_context)
    then scores ++ [RealTimeContextEngine.confidence_score realtime_context]
    else scores in
  let scores :=
    if Qlt_le_dec 0 (accessibility_score accessibility_intel)
    then scores ++ [0.7] else scores in
  scores.

Definition _calculate_confidence_score
    (business_intel : BusinessIntel) (realtime_context : RealtimeContext)
    (accessibility_intel : AccessibilityIntel) : Q :=
  let scores := confidence_weights business_intel realtime_context accessibility_intel in
  match scores with
  | [] => 0.5
  | _ => py_sum scores / py_len scores
  end.

(** The list [insights] before [insights[:4]]. *)
Definition insights_candidates
    (place_data : json) (business_intel : BusinessIntel)
    (realtime_context : RealtimeContext) (accessibility_intel : AccessibilityIntel)
    : list string :=
  let insights := [] in
  let popularity := popularity_score business_intel in
  let insights :=
    if Qle_bool 8.0 popularity
    then insights ++
         ["Highly popular destination with " ++ float_str popularity ++ "/10 rating"]%string
    else if Qle_bool 6.0 popularity
    then insights ++
         ["Well-regarded place with " ++ float_str popularity ++ "/10 popularity"]%string
    else insights in
  let crowd := crowd_level realtime_context in
  let insights :=
    if (crowd =? "quiet")%string
    then insights ++ ["Currently quiet - perfect for a peaceful visit"]
    else if (crowd =? "busy")%string
    then insights ++
         ["Currently busy - consider visiting during suggested off-peak times"]
    else insights in
  let insights :=
    if wheelchair_accessible accessibility_intel
    then insights ++ ["Fully wheelchair accessible with comprehensive features"]
    else insights in
  let atm := atmosphere business_intel in
  let ideal := ideal_for business_intel in
  let insights :=
    if negb (atm =? "")%string && negb (Nat.eqb (length ideal) 0)
    then insights ++
         [str_title atm ++ " atmosphere, ideal for " ++ String.concat ", " ideal]%string
    else insights in
  insights.

Definition _generate_personalized_insights
    (place_data : json) (business_intel : BusinessIntel)
    (realtime_context : RealtimeContext) (accessibility_intel : AccessibilityIntel)
    : list string :=
  slice_to 4 (insights_candidates place_data business_intel realtime_context
                                  accessibility_intel).

(** The list [alternatives] before [alternatives[:3]]; the early return on
    empty categories returns it as it is, empty. *)
Definition alternatives_candidates
    (place_data : json) (business_intel : BusinessIntel) : result (list string) :=
  let alternatives := [] in
  categories <- py_get place_data "categories" (JArr []) ;;
  if negb (truthy categories) then Ok alternatives else
  first <- py_getitem0 categories ;;
  cname <- py_get first "name" (JStr "") ;;
  category_name <- py_lower cname ;;
  if contains "coffee" category_name then
    Ok (alternatives ++
        ["Local independent coffee shops nearby";
         "Tea houses for alternative beverages";
         "Co-working spaces with café facilities"])
  else if contains "restaurant" category_name then
    Ok (alternatives ++
        ["Similar cuisine restaurants in the area";
         "Food trucks for casual dining";
         "Delivery options if crowded"])
  else if contains "gym" category_name then
    Ok (alternatives ++
        ["Outdoor fitness areas nearby";
         "Alternative fitness studios";
         "Home workout options during peak hours"])
  else Ok alternatives.

Definition _suggest_alternatives
    (place_data : json) (business_intel : BusinessIntel) : result (list string) :=
  alternatives <- alternatives_candidates place_data business_intel ;;
  Ok (slice_to 3 alternatives).

Definition _create_visit_strategy
    (realtime_context : RealtimeContext) (accessibility_intel : AccessibilityIntel)
    : string :=
  let best_times := best_visit_times realtime_context in
  let crowd := crowd_level realtime_context in
  let wait_time := estimated_wait_time realtime_context in
  let strategy_parts := [] in
  let strategy_parts :=
    match best_times with
    | [] => strategy_parts
    | _ => strategy_parts ++ ["Best visit times: " ++ String.concat ", " best_times]%string
    end in
  let strategy_parts :=
    if (crowd =? "busy")%string && negb (wait_time =? "no wait")%string
    then strategy_parts ++ ["Current wait time: " ++ wait_time]%string
    else strategy_parts in
  let strategy_parts :=
    if wheelchair_accessible accessibility_intel
    then strategy_parts ++ ["Accessible entrance available"]
    else strategy_parts in
  match strategy_parts with
  | [] => "Visit anytime based on your preference"
  | _ => String.concat ". " strategy_parts
  end.

(** The list [notes] before [notes[:3]]. *)
Definition notes_candidates (accessibility_intel : AccessibilityIntel) : list string :=
  let notes := [] in
  let notes :=
    if wheelchair_accessible accessibility_intel
    then notes ++ ["Wheelchair accessible with ramp access"]
    else notes ++ ["Accessibility features may be limited - recommend calling ahead"] in
  let feats := features accessibility_intel in
  let notes :=
    if accessible_restrooms feats
    then notes ++ ["Accessible restroom facilities available"] else notes in
  let notes :=
    if hearing_loop feats
    then notes ++ ["Hearing loop system available for hearing aid users"] else notes in
  notes.

Definition _create_accessibility_notes (accessibility_intel : AccessibilityIntel)
    : list string :=
  slice_to 3 (notes_candidates accessibility_intel).

Definition generate_recommendations
    (place_data : json) (business_intel : BusinessIntel)
    (realtime_context : RealtimeContext) (accessibility_intel : AccessibilityIntel)
    (w : World) : result UnifiedRecommendations :=
  let confidence :=
    _calculate_confidence_score business_intel realtime_context accessibility_intel in
  let insights :=
    _generate_personalized_insights place_data business_intel realtime_context
                                    accessibility_intel in
  alternatives <- _suggest_alternatives place_data business_intel ;;
  let strategy := _create_visit_strategy realtime_context accessibility_intel in
  let notes := _create_accessibility_notes accessibility_intel in
  let processing_time := elapsed_ms (clock_recommendations w) in
  Ok {| confidence_score := py_round confidence 2;
        personalized_insights := insights;
        alternative_suggestions := alternatives;
        optimal_visit_strategy := strategy;
        accessibility_notes := notes;
        processing_time_ms := py_round processing_time 2 |}.

End Engine.
End UnifiedRecommendationEngine.

(** ** The endpoint [POST /api/v1/intelligence/enhance] *)

Module Endpoint.

Import BusinessIntelligenceEngine RealTimeContextEngine AccessibilityIntelligenceEngine
       UnifiedRecommendationEngine.

(** How [jsonify] writes the engines' dicts. *)
Definition json_strings (l : list string) : json := JArr (map JStr l).

Definition json_business (b : BusinessIntel) : json :=
  JObj [ ("popularity_score", JNum (popularity_score b));
         ("sentiment_score", JNum (sentiment_score b));
         ("specialties", json_strings (specialties b));
         ("ideal_for", json_strings (ideal_for b));
         ("price_range", JStr (price_range b));
         ("atmosphere", JStr (atmosphere b));
         ("trending_score", JNum (trending_score b));
         ("processing_time_ms", JNum (BusinessIntelligenceEngine.processing_time_ms b)) ].

Definition json_context (c : RealtimeContext) : json :=
  JObj [ ("current_status", JStr (current_status c));
         ("crowd_level", JStr (crowd_level c));
         ("best_visit_times", json_strings (best_visit_times c));
         ("live_events", json_strings (live_events c));
         ("estimated_wait_time", JStr (estimated_wait_time c));
         ("weather_impact", JStr (weather_impact c));
         ("last_updated", JStr (last_updated c));
         ("confidence_score", JNum (RealTimeContextEngine.confidence_score c));
         ("processing_time_ms", JNum (RealTimeContextEngine.processing_time_ms c)) ].

Definition json_features (f : Features) : json :=
  JObj [ ("ramp_access", JBool (ramp_access f));
         ("elevator", JBool (elevator f));
         ("accessible_restrooms", JBool (accessible_restrooms f));
         ("braille_signage", JBool (braille_signage f));
         ("hearing_loop", JBool (hearing_loop f));
         ("wide_entrances", JBool (wide_entrances f));
         ("accessible_parking", JBool (accessible_parking f)) ].

Definition json_recommendations (r : Recommendations) : json :=
  JObj [ ("mobility_friendly_areas", json_strings (mobility_friendly_areas r));
         ("sensory_accommodations", json_strings (sensory_accommodations r));
         ("cognitive_support", json_strings (cognitive_support r)) ].

Definition json_accessibility (a : AccessibilityIntel) : json :=
  JObj [ ("wheelchair_accessible", JBool (wheelchair_accessible a));
         ("accessibility_score", JNum (accessibility_score a));
         ("features", json_features (features a));
         ("inclusive_recommendations", json_recommendations (inclusive_recommendations a));
         ("processing_time_ms", JNum (AccessibilityIntelligenceEngine.processing_time_ms a)) ].

Definition json_unified (u : UnifiedRecommendations) : json :=
  JObj [ ("confidence_score", JNum (UnifiedRecommendationEngine.confidence_score u));
         ("personalized_insights", json_strings (personalized_insights u));
         ("alternative_suggestions", json_strings (alternative_suggestions u));
         ("optimal_visit_strategy", JStr (optimal_visit_strategy u));
         ("accessibility_notes", json_strings (accessibility_notes u));
         ("processing_time_ms", JNum (UnifiedRecommendationEngine.processing_time_ms u)) ].

(** The class name of an exception stands for the text of [str(e)]. *)
Definition exn_message (e : exn) : string :=
  match e with
  | AttributeError => "AttributeError"
  | TypeError => "TypeError"
  | KeyError => "KeyError"
  | IndexError => "IndexError"
  end.

Section Endpoint.
Context {py : PyBuiltins}.

(** The four engine calls of the endpoint, in its order. *)
Definition run_engines (place_data : json) (w : World)
    : result (BusinessIntel * RealtimeContext * AccessibilityIntel * UnifiedRecommendations) :=
  business_intel <- analyze_place place_data w ;;
  realtime_context <- analyze_context place_data w ;;
  accessibility_intel <- analyze_accessibility place_data w ;;
  unified_recommendations <-
    generate_recommendations place_data business_intel realtime_context
                             accessibility_intel w ;;
  Ok (business_intel, realtime_context, accessibility_intel, unified_recommendations).

(** The body of the [try] block. [data] is what [request.get_json()]
    returned, [JNull] for [None]; a response is a JSON body and a status. *)
Definition enhance_try (data : json) (w : World) : result (json * Z) :=
  if negb (truthy data) then
    Ok (JObj [("error", JStr "No data provided")], 400%Z)
  else
  place_data <- py_get data "place" (JObj []) ;;
  if negb (truthy place_data) then
    Ok (JObj [("error", JStr "No place data provided")], 400%Z)
  else
  logged_name <- py_get place_data "name" (JStr "Unknown") ;;
  intel <- run_engines place_data w ;;
  let '(business_intel, realtime_context, accessibility_intel, unified_recommendations) :=
    intel in
  let total_processing_time := elapsed_ms (clock_endpoint w) in
  let response :=
    JObj [ ("business_intelligence", json_business business_intel);
           ("real_time_context", json_context realtime_context);
           ("accessibility_intelligence", json_accessibility accessibility_intel);
           ("unified_recommendations", json_unified unified_recommendations);
           ("processing_time_ms", JNum (py_round total_processing_time 2));
           ("data_sources",
            json_strings ["foursquare"; "ml_models"; "accessibility_db";
                          "real_time_feeds"]) ] in
  Ok (response, 200%Z).

(** [enhance_place_intelligence]: the [try] block and its [except]. *)
Definition enhance_place_intelligence (data : json) (w : World) : json * Z :=
  match enhance_try data w with
  | Ok response => response
  | Raise e =>
      (JObj [("error", JStr "Internal server error"); ("message", JStr (exn_message e))],
       500%Z)
  end.

End Endpoint.
End Endpoint.

(** ** Built-ins on ASCII text

    An instance of [PyBuiltins] that agrees with Python on ASCII strings and
    on floats with one decimal; it serves to evaluate the engines on
    concrete requests. *)

Module AsciiBuiltins.

Definition lower_char (c : ascii) : ascii :=
  let n := nat_of_ascii c in
  if ((65 <=? n) && (n <=? 90))%nat then ascii_of_nat (n + 32) else c.

Definition upper_char (c : ascii) : ascii :=
  let n := nat_of_ascii c in
  if ((97 <=? n) && (n <=? 122))%nat then ascii_of_nat (n - 32) else c.

Definition is_letter (c : ascii) : bool :=
  let n := nat_of_ascii c in
  (((65 <=? n) && (n <=? 90)) || ((97 <=? n) && (n <=? 122)))%nat.

Definition is_space (c : ascii) : bool :=
  let n := nat_of_ascii c in
  (((9 <=? n) && (n <=? 13)) || ((28 <=? n) && (n <=? 32)))%nat.

Fixpoint lower (s : string) : string :=
  match s with
  | EmptyString => EmptyString
  | String c rest => String (lower_char c) (lower rest)
  end.

(** Words of [s]: maximal runs without white space; [word] is the run being
    read, reversed. *)
Fixpoint split_from (word : list ascii) (s : string) : list string :=
  let close := match word with
               | [] => []
               | _ => [string_of_list_ascii (rev word)]
               end in
  match s with
  | EmptyString => close
  | String c rest =>
      if is_space c then close ++ split_from [] rest
      else split_from (c :: word) rest
  end.

Definition split (s : string) : list string := split_from [] s.

(** Upper case after a character that is no letter, lower case after a
    letter. *)
Fixpoint title_from (after_letter : bool) (s : string) : string :=
  match s with
  | EmptyString => EmptyString
  | String c rest =>
      String (if after_letter then lower_char c else upper_char c)
             (title_from (is_letter c) rest)
  end.

Definition title (s : string) : string := title_from false s.

Definition digits (z : Z) : string :=
  DecimalString.NilZero.string_of_uint (N.to_uint (Z.to_N z)).

(** A non-negative float with one decimal, as Python prints it: [8.3]. *)
Definition float1_str (x : Q) : string :=
  let tenths := round_half_even (x * 10) in
  (digits (tenths / 10) ++ "." ++ digits (tenths mod 10))%string.

Definition builtins : PyBuiltins :=
  {| str_lower := lower;
     str_split := split;
     str_title := title;
     float_str := float1_str |}.

End AsciiBuiltins.

(** ** Requests the engines accept

    The run-time types the engines rely on: the place is an object, its
    [name] (when present) is a string, and its [categories] are either falsy
    or a list whose first element is an object with a string [name] (when
    present). The schema of the specification (a place object with optional
    [name] string, [categories] array of objects with a [name], [location])
    satisfies it. *)

Definition is_str (x : json) : bool :=
  match x with JStr _ => true | _ => false end.

Definition well_typed_categories (categories : json) : bool :=
  negb (truthy categories) ||
  match categories with
  | JArr (JObj first :: _) => is_str (dict_get first "name" (JStr ""))
  | _ => false
  end.

Definition well_typed_place (place_data : json) : bool :=
  match place_data with
  | JObj fields =>
      is_str (dict_get fields "name" (JStr "")) &&
      well_typed_categories (dict_get fields "categories" (JArr []))
  | _ => false
  end.

(** A body the endpoint answers with a client error: the body is falsy, or
    it is an object whose [place] is missing or falsy. *)
Definition rejected (data : json) : bool :=
  negb (truthy data) ||
  match data with
  | JObj fields => negb (truthy (dict_get fields "place" (JObj [])))
  | _ => false
  end.

Definition well_typed_body (data : json) : bool :=
  match data with
  | JObj fields => well_typed_place (dict_get fields "place" (JObj []))
  | _ => false
  end.

(** [k in body] for a response body. *)
Definition has_key (body : json) (k : string) : bool :=
  match body with
  | JObj fields => match dict_lookup fields k with Some _ => true | None => false end
  | _ => false
  end.

(** ** The request, before it is parsed

    [enhance_place_intelligence] starts with [request.get_json()], inside
    its [try] block. Flask parses the body there and raises when there is
    nothing to parse: [UnsupportedMediaType] when the content type is not
    JSON, [BadRequest] when the content type is JSON and the body is not
    valid JSON, the empty body included. Both are exceptions, so the
    [except Exception] of the endpoint catches them. *)

Inductive Request : Type :=
| NotJson                 (* the content type is not JSON *)
| BadJson (body : string) (* a JSON content type, a body that does not parse *)
| Json (data : json).     (* a JSON content type, a body that parses to [data] *)

Inductive http_error : Type := UnsupportedMediaType | BadRequest.

(** [request.get_json()]. *)
Definition get_json (request : Request) : http_error + json :=
  match request with
  | NotJson => inl UnsupportedMediaType
  | BadJson _ => inl BadRequest
  | Json data => inr data
  end.

(** The class name of the exception stands for the text of [str(e)]. *)
Definition http_error_message (e : http_error) : string :=
  match e with
  | UnsupportedMediaType => "UnsupportedMediaType"
  | BadRequest => "BadRequest"
  end.

(** The endpoint from the request on: [get_json] raises into the [except]
    of the [try] block, and a parsed body goes through the rest of it. *)
Definition enhance_request {py : PyBuiltins} (request : Request) (w : World) : json * Z :=
  match get_json request with
  | inl e =>
      (JObj [("error", JStr "Internal server error");
             ("message", JStr (http_error_message e))],
       500%Z)
  | inr data => Endpoint.enhance_place_intelligence data w
  end.

(** ** The specification's wording of three rules *)

(** The classifier of the specification: keyword sets in precedence order,
    the first set with a keyword inside the label wins. *)
Definition keyword_sets : list (string * list string) :=
  [ ("coffee", ["coffee"; "café"]);
    ("restaurant", ["restaurant"; "food"]);
    ("gym", ["gym"; "fitness"]);
    ("library", ["library"]);
    ("shopping", ["shop"; "store"]) ].

Fixpoint first_match (sets : list (string * list string)) (label : string) : string :=
  match sets with
  | [] => "general"
  | (category, keywords) :: rest =>
      if existsb (fun keyword => contains keyword label) keywords
      then category
      else first_match rest label
  end.

Definition classify (label : string) : string := first_match keyword_sets label.

(** A crowd level read from a set of busy hours and a set of moderate
    hours; any other hour is quiet. *)
Definition crowd_by_hours (busy moderate : list Z) (hour : Z) : string :=
  if hour_in hour busy then "busy"
  else if hour_in hour moderate then "moderate"
  else "quiet".

(** The trending score with the three time bonuses as independent
    conditions, each applied whenever it holds. *)
Definition trending_independent (category : string) (hour : Z) : Q :=
  let score := dict_get BusinessIntelligenceEngine.trending_categories category 5.0 in
  let score :=
    if (category =? "coffee")%string && between 7 hour 9 then score + 1.0 else score in
  let score :=
    if (category =? "restaurant")%string && between 12 hour 14 then score + 1.0 else score in
  let score :=
    if (category =? "restaurant")%string && between 18 hour 20 then score + 1.0 else score in
  py_max 0.0 (py_min 10.0 score).

(** ** Sample requests *)

Definition place_of (name category : string) : json :=
  JObj [("name", JStr name); ("categories", JArr [JObj [("name", JStr category)]])].

Definition starbucks : json := place_of "Starbucks Downtown" "Coffee Shop".
Definition city_library : json := place_of "City Library" "Library".
Definition food_court : json := place_of "Plaza Food Court" "Food Court".
Definition iron_gym : json := place_of "Iron Gym" "Gym".
Definition nameless_place : json := JObj [("name", JNum 7); ("categories", JArr [])].

(** A morning request: [random.random()] returns 0.5, 0.5, 0.5 and 0.73
    behind the four [uniform] calls, and [random.choice] draws index 0 for
    the crowd and 1 for the weather. *)
Definition morning : World :=
  {| u_popularity := 0.5;
     u_sentiment := 0.5;
     hour_business := 8;
     clock_business := (0, 0.001);
     hour_context := 8;
     i_crowd := 0;
     i_weather := 1;
     u_confidence := 0.5;
     utcnow_iso := "2024-05-01T08:00:00";
     clock_context := (0.001, 0.002);
     u_accessibility := 0.73;
     c_ramp_access := true;
     c_elevator := false;
     c_accessible_restrooms := true;
     c_wide_entrances := false;
     c_accessible_parking := true;
     clock_accessibility := (0.002, 0.003);
     clock_recommendations := (0.003, 0.004);
     clock_endpoint := (0, 0.005) |}.

(** The same request with another index drawn for the crowd. *)
Definition morning_busy : World :=
  {| u_popularity := u_popularity morning;
     u_sentiment := u_sentiment morning;
     hour_business := hour_business morning;
     clock_business := clock_business morning;
     hour_context := hour_context morning;
     i_crowd := 2;
     i_weather := i_weather morning;
     u_confidence := u_confidence morning;
     utcnow_iso := utcnow_iso morning;
     clock_context := clock_context morning;
     u_accessibility := u_accessibility morning;
     c_ramp_access := c_ramp_access morning;
     c_elevator := c_elevator morning;
     c_accessible_restrooms := c_accessible_restrooms morning;
     c_wide_entrances := c_wide_entrances morning;
     c_accessible_parking := c_accessible_parking morning;
     clock_accessibility := clock_accessibility morning;
     clock_recommendations := clock_recommendations morning;
     clock_endpoint := clock_endpoint morning |}.

(** Results of the three analyzers for which every check of the synthesis
    appends a sentence. *)
Definition popular_business : BusinessIntelligenceEngine.BusinessIntel :=
  {| BusinessIntelligenceEngine.popularity_score := 8.5;
     BusinessIntelligenceEngine.sentiment_score := 4.2;
     BusinessIntelligenceEngine.specialties := ["study spaces"; "books"; "quiet environment"];
     BusinessIntelligenceEngine.ideal_for := ["studying"; "research"; "reading"];
     BusinessIntelligenceEngine.price_range := "free";
     BusinessIntelligenceEngine.atmosphere := "quiet";
     BusinessIntelligenceEngine.trending_score := 6.0;
     BusinessIntelligenceEngine.processing_time_ms := 0.01 |}.

Definition quiet_context : RealTimeContextEngine.RealtimeContext :=
  {| RealTimeContextEngine.current_status := "open";
     RealTimeContextEngine.crowd_level := "quiet";
     RealTimeContextEngine.best_visit_times := ["9:00-11:00"; "14:00-16:00"];
     RealTimeContextEngine.live_events := [];
     RealTimeContextEngine.estimated_wait_time := "no wait";
     RealTimeContextEngine.weather_impact := "minimal impact";
     RealTimeContextEngine.last_updated := "2024-05-01T08:00:00Z";
     RealTimeContextEngine.confidence_score := 0.82;
     RealTimeContextEngine.processing_time_ms := 0.01 |}.

Definition accessible_intel : AccessibilityIntelligenceEngine.AccessibilityIntel :=
  {| AccessibilityIntelligenceEngine.wheelchair_accessible := true;
     AccessibilityIntelligenceEngine.accessibility_score := 8.3;
     AccessibilityIntelligenceEngine.features :=
       {| AccessibilityIntelligenceEngine.ramp_access := true;
          AccessibilityIntelligenceEngine.elevator := true;
          AccessibilityIntelligenceEngine.accessible_restrooms := true;
          AccessibilityIntelligenceEngine.braille_signage := true;
          AccessibilityIntelligenceEngine.hearing_loop := true;
          AccessibilityIntelligenceEngine.wide_entrances := true;
          AccessibilityIntelligenceEngine.accessible_parking := true |};
     AccessibilityIntelligenceEngine.inclusive_recommendations :=
       {| AccessibilityIntelligenceEngine.mobility_friendly_areas := [];
          AccessibilityIntelligenceEngine.sensory_accommodations := [];
          AccessibilityIntelligenceEngine.cognitive_support := [] |};
     AccessibilityIntelligenceEngine.processing_time_ms := 0.01 |}.

(** More sample requests: a place that earns no accessibility bonus, and
    the coffee shop again with a location, a second category and more
    keys. *)
Definition corner_bakery : json := place_of "Corner Bakery" "Bakery".

Definition starbucks_fields : list (string * json) :=
  [("name", JStr "Starbucks Downtown");
   ("categories", JArr [JObj [("name", JStr "Coffee Shop")]])].

Definition starbucks_located_fields : list (string * json) :=
  [("location", JObj [("lat", JNum 40.7); ("lng", JNum (-74.0))]);
   ("name", JStr "Starbucks Downtown");
   ("fsq_id", JStr "4b5a");
   ("categories",
    JArr [JObj [("id", JNum 13035); ("name", JStr "Coffee Shop")];
          JObj [("name", JStr "Bakery")]])].

(** * Properties *)

(** ** Clamping and rounding *)

Section Numbers.

Lemma py_min_le_l (a b : Q) : py_min a b <= a.
Proof. unfold py_min. destruct (Qlt_le_dec b a); lra. Qed.

Lemma py_min_le_r (a b : Q) : py_min a b <= b.
Proof. unfold py_min. destruct (Qlt_le_dec b a); lra. Qed.

Lemma py_max_ge_l (a b : Q) : a <= py_max a b.
Proof. unfold py_max. destruct (Qlt_le_dec a b); lra. Qed.

(** [max(lo, min(hi, x))] lies in [lo, hi], whatever [x] is. *)
Lemma clamp_bounds (lo hi x : Q) :
  lo <= hi -> lo <= py_max lo (py_min hi x) /\ py_max lo (py_min hi x) <= hi.
Proof.
  intros Hlohi. split; [apply py_max_ge_l|].
  unfold py_max. destruct (Qlt_le_dec lo (py_min hi x)); [apply py_min_le_l | exact Hlohi].
Qed.

Lemma round_half_even_floor (x : Q) :
  round_half_even x = Qfloor x \/
  (round_half_even x = (Qfloor x + 1)%Z /\ inject_Z (Qfloor x) + (1 # 2) <= x).
Proof.
  unfold round_half_even.
  destruct (Qlt_le_dec (x - inject_Z (Qfloor x)) (1 # 2)) as [Hlt | Hge]; [now left|].
  destruct (Qlt_le_dec (1 # 2) (x - inject_Z (Qfloor x))).
  - right. split; [reflexivity | lra].
  - destruct (Z.even (Qfloor x)); [now left | right; split; [reflexivity | lra]].
Qed.

(** Rounding never passes an integer: it is monotone around each one. *)
Lemma round_half_even_ge (n : Z) (x : Q) :
  inject_Z n <= x -> (n <= round_half_even x)%Z.
Proof.
  intros H. apply Qfloor_resp_le in H. rewrite Qfloor_Z in H.
  destruct (round_half_even_floor x) as [-> | [-> _]]; lia.
Qed.

Lemma round_half_even_le (n : Z) (x : Q) :
  x <= inject_Z n -> (round_half_even x <= n)%Z.
Proof.
  intros H. pose proof (Qfloor_resp_le _ _ H) as Hf. rewrite Qfloor_Z in Hf.
  destruct (round_half_even_floor x) as [-> | [-> Hhalf]]; [exact Hf|].
  assert (Hlt : inject_Z (Qfloor x) < inject_Z n) by lra.
  rewrite <- Zlt_Qlt in Hlt. lia.
Qed.

Lemma scale_pos (ndigits : nat) : 0 < inject_Z (10 ^ Z.of_nat ndigits).
Proof.
  replace 0 with (inject_Z 0) by reflexivity. rewrite <- Zlt_Qlt.
  apply Z.pow_pos_nonneg; lia.
Qed.

(** A decimal with [ndigits] digits is a fixed point below and above which
    [round] stays. *)
Lemma py_round_ge (k : Z) (a x : Q) (ndigits : nat) :
  a == inject_Z k / inject_Z (10 ^ Z.of_nat ndigits) ->
  a <= x -> a <= py_round x ndigits.
Proof.
  intros Ha Hax. unfold py_round. pose proof (scale_pos ndigits) as Hm.
  set (m := inject_Z (10 ^ Z.of_nat ndigits)) in *.
  rewrite Ha. apply Qmult_le_compat_r; [|apply Qlt_le_weak, Qinv_lt_0_compat, Hm].
  rewrite <- Zle_Qle. apply round_half_even_ge.
  rewrite Ha in Hax.
  setoid_replace (inject_Z k) with (inject_Z k / m * m) by (field; lra).
  apply Qmult_le_compat_r; lra.
Qed.

Lemma py_round_le (k : Z) (b x : Q) (ndigits : nat) :
  b == inject_Z k / inject_Z (10 ^ Z.of_nat ndigits) ->
  x <= b -> py_round x ndigits <= b.
Proof.
  intros Hb Hxb. unfold py_round. pose proof (scale_pos ndigits) as Hm.
  set (m := inject_Z (10 ^ Z.of_nat ndigits)) in *.
  rewrite Hb. apply Qmult_le_compat_r; [|apply Qlt_le_weak, Qinv_lt_0_compat, Hm].
  rewrite <- Zle_Qle. apply round_half_even_le.
  rewrite Hb in Hxb.
  setoid_replace (inject_Z k) with (inject_Z k / m * m) by (field; lra).
  apply Qmult_le_compat_r; lra.
Qed.

End Numbers.

(** ** The monad and the run-time types *)

Lemma bind_Ok_inv {A B : Type} (m : result A) (k : A -> result B) (b : B) :
  bind m k = Ok b -> exists a, m = Ok a /\ k a = Ok b.
Proof. destruct m as [a | e]; [intros H; now exists a | discriminate]. Qed.

(** Splits [H : bind m k = Ok b] into the result of [m] and the rest. *)
Ltac bind_ok H :=
  let x := fresh "x" in
  let E := fresh "E" in
  apply bind_Ok_inv in H; destruct H as [x [E H]].

Ltac binds_ok H := repeat bind_ok H.

(** Closes a goal [lo <= max(lo', min(hi', x)) /\ ... <= hi] where the
    bounds are the clamp's own, written differently. *)
Ltac clamp_range :=
  match goal with
  | |- _ <= py_max ?lo (py_min ?hi ?x) /\ _ =>
      let Hlo := fresh in let Hhi := fresh in
      destruct (clamp_bounds lo hi x ltac:(lra)) as [Hlo Hhi]; split; lra
  end.

Lemma is_str_inv (x : json) : is_str x = true -> exists s, x = JStr s.
Proof. destruct x; try discriminate. intros _. now eexists. Qed.

Lemma well_typed_categories_inv (categories : json) :
  well_typed_categories categories = true ->
  truthy categories = false \/
  (truthy categories = true /\
   exists first rest s,
     categories = JArr (JObj first :: rest) /\
     dict_get first "name" (JStr "") = JStr s).
Proof.
  unfold well_typed_categories. destruct (truthy categories) eqn:Ht; [|now left].
  cbn [negb orb]. intros H. right. split; [reflexivity|].
  destruct categories as [| | | | [|[| | | | |first] rest] |]; try discriminate.
  apply is_str_inv in H. destruct H as [s Hs]. now exists first, rest, s.
Qed.

Lemma well_typed_place_inv (place_data : json) :
  well_typed_place place_data = true ->
  exists fields n,
    place_data = JObj fields /\
    dict_get fields "name" (JStr "") = JStr n /\
    well_typed_categories (dict_get fields "categories" (JArr [])) = true.
Proof.
  destruct place_data; try discriminate. cbn [well_typed_place].
  intros H. apply andb_true_iff in H. destruct H as [Hn Hc].
  apply is_str_inv in Hn. destruct Hn as [n Hn]. now exists fields, n.
Qed.

(** ** BusinessIntelligenceEngine *)

Section Business.
Context {py : PyBuiltins}.
Import BusinessIntelligenceEngine.

Lemma popularity_bounds (name categories location : json) (u score : Q) :
  _calculate_popularity_score name categories location u = Ok score ->
  1 <= score /\ score <= 10.
Proof.
  unfold _calculate_popularity_score. intros H. binds_ok H.
  injection H as <-. clamp_range.
Qed.

Lemma sentiment_bounds (name : json) (category : string) (u score : Q) :
  _analyze_sentiment name category u = Ok score -> 1 <= score /\ score <= 5.
Proof.
  unfold _analyze_sentiment. intros H. binds_ok H.
  injection H as <-. clamp_range.
Qed.

Lemma trending_bounds (category : string) (hour : Z) :
  0 <= _calculate_trending_score category hour /\
  _calculate_trending_score category hour <= 10.
Proof. unfold _calculate_trending_score. clamp_range. Qed.

(** What [analyze_place] returns: the three scores, rounded to one
    decimal. *)
Lemma analyze_place_inv (place_data : json) (w : World) (b : BusinessIntel) :
  analyze_place place_data w = Ok b ->
  exists name categories location category popularity sentiment,
    _calculate_popularity_score name categories location (u_popularity w)
    = Ok popularity /\
    _analyze_sentiment name category (u_sentiment w) = Ok sentiment /\
    popularity_score b = py_round popularity 1 /\
    sentiment_score b = py_round sentiment 1 /\
    trending_score b
    = py_round (_calculate_trending_score category (hour_business w)) 1.
Proof.
  unfold analyze_place. intros H.
  bind_ok H. bind_ok H. bind_ok H. bind_ok H. bind_ok H. bind_ok H.
  injection H as <-. eexists _, _, _, _, _, _. repeat split; eassumption.
Qed.

(** Whatever the request and the draws, a result of [analyze_place] has its
    three scores in range. *)
Lemma analyze_place_bounds (place_data : json) (w : World) (b : BusinessIntel) :
  analyze_place place_data w = Ok b ->
  (1 <= popularity_score b /\ popularity_score b <= 10) /\
  (1 <= sentiment_score b /\ sentiment_score b <= 5) /\
  (0 <= trending_score b /\ trending_score b <= 10).
Proof.
  intros H. apply analyze_place_inv in H.
  destruct H as (name & categories & location & category & popularity & sentiment
                 & Hp & Hs & -> & -> & ->).
  apply popularity_bounds in Hp. destruct Hp as [Hp1 Hp2].
  apply sentiment_bounds in Hs. destruct Hs as [Hs1 Hs2].
  destruct (trending_bounds category (hour_business w)) as [Ht1 Ht2].
  repeat split.
  - apply (py_round_ge 10); [now vm_compute | exact Hp1].
  - apply (py_round_le 100); [now vm_compute | exact Hp2].
  - apply (py_round_ge 10); [now vm_compute | exact Hs1].
  - apply (py_round_le 50); [now vm_compute | exact Hs2].
  - apply (py_round_ge 0); [now vm_compute | exact Ht1].
  - apply (py_round_le 100); [now vm_compute | exact Ht2].
Qed.

Lemma get_primary_category_total (categories : json) :
  well_typed_categories categories = true ->
  exists category, _get_primary_category categories = Ok category.
Proof.
  intros H. unfold _get_primary_category.
  destruct (well_typed_categories_inv _ H) as [-> | [-> (first & rest & s & -> & Hs)]];
    cbn [negb]; [now eexists|].
  cbn [py_getitem0 bind py_get]. rewrite Hs. cbn [py_lower bind]. now eexists.
Qed.

Lemma popularity_total (n : string) (categories location : json) (u : Q) :
  well_typed_categories categories = true ->
  exists score, _calculate_popularity_score (JStr n) categories location u = Ok score.
Proof.
  intros H. unfold _calculate_popularity_score. cbn [py_lower py_split bind].
  destruct (existsb _ _); cbn [bind];
    (destruct (well_typed_categories_inv _ H) as [-> | [-> (first & rest & s & -> & Hs)]];
     [cbn [bind]; now eexists|];
     cbn [py_getitem0 bind py_get]; rewrite Hs; cbn [py_lower bind]; now eexists).
Qed.

Lemma analyze_place_total (place_data : json) (w : World) :
  well_typed_place place_data = true ->
  exists b, analyze_place place_data w = Ok b.
Proof.
  intros H. destruct (well_typed_place_inv _ H) as (fields & n & -> & Hn & Hc).
  unfold analyze_place. cbn [py_get bind]. rewrite Hn.
  destruct (get_primary_category_total _ Hc) as [category ->]. cbn [bind].
  destruct (popularity_total n _ (dict_get fields "location" (JObj []))
                             (u_popularity w) Hc) as [score ->].
  cbn [bind]. unfold _analyze_sentiment. cbn [py_lower bind]. now eexists.
Qed.

End Business.

(** ** RealTimeContextEngine *)

Section Context.
Context {py : PyBuiltins}.
Import RealTimeContextEngine.

Lemma uniform_range (a b u : Q) :
  a <= b -> unit_interval u -> a <= uniform a b u /\ uniform a b u <= b.
Proof. unfold uniform, unit_interval. intros Hab [H0 H1]. split; nra. Qed.

Lemma analyze_context_confidence (place_data : json) (w : World) (c : RealtimeContext) :
  analyze_context place_data w = Ok c ->
  confidence_score c = py_round (uniform 0.7 0.95 (u_confidence w)) 2.
Proof.
  unfold analyze_context. intros H. binds_ok H. now injection H as <-.
Qed.

Lemma analyze_context_bounds (place_data : json) (w : World) (c : RealtimeContext) :
  unit_interval (u_confidence w) ->
  analyze_context place_data w = Ok c ->
  0.7 <= confidence_score c /\ confidence_score c <= 0.95.
Proof.
  intros Hu H. rewrite (analyze_context_confidence _ _ _ H).
  destruct (uniform_range 0.7 0.95 (u_confidence w)) as [Hlo Hhi]; [lra | exact Hu |].
  split.
  - apply (py_round_ge 70); [now vm_compute | exact Hlo].
  - apply (py_round_le 95); [now vm_compute | exact Hhi].
Qed.

Lemma context_primary_category_total (categories : json) :
  well_typed_categories categories = true ->
  exists category, _get_primary_category categories = Ok category.
Proof.
  intros H. unfold _get_primary_category.
  destruct (well_typed_categories_inv _ H) as [-> | [-> (first & rest & s & -> & Hs)]];
    cbn [negb]; [now eexists|].
  cbn [py_getitem0 bind py_get]. rewrite Hs. cbn [py_lower bind]. now eexists.
Qed.

Lemma analyze_context_total (place_data : json) (w : World) :
  well_typed_place place_data = true ->
  exists c, analyze_context place_data w = Ok c.
Proof.
  intros H. destruct (well_typed_place_inv _ H) as (fields & n & -> & Hn & Hc).
  unfold analyze_context. cbn [py_get bind].
  destruct (context_primary_category_total _ Hc) as [category ->]. cbn [bind].
  now eexists.
Qed.

End Context.

(** ** AccessibilityIntelligenceEngine *)

Section Accessibility.
Context {py : PyBuiltins}.
Import AccessibilityIntelligenceEngine.

Lemma accessibility_score_bounds (categories name : json) (u score : Q) :
  _calculate_accessibility_score categories name u = Ok score ->
  0 <= score /\ score <= 10.
Proof.
  unfold _calculate_accessibility_score. intros H.
  destruct (negb (truthy categories)); [injection H as <-; lra|].
  binds_ok H. injection H as <-. clamp_range.
Qed.

(** What [analyze_accessibility] returns: the flag is computed from the
    score before rounding, the reported score is the rounded one. *)
Lemma analyze_accessibility_inv (place_data : json) (w : World) (a : AccessibilityIntel) :
  analyze_accessibility place_data w = Ok a ->
  exists categories name score,
    py_get place_data "categories" (JArr []) = Ok categories /\
    py_get place_data "name" (JStr "") = Ok name /\
    _calculate_accessibility_score categories name (u_accessibility w) = Ok score /\
    wheelchair_accessible a = Qle_bool 7.0 score /\
    accessibility_score a = py_round score 1.
Proof.
  unfold analyze_accessibility. intros H.
  bind_ok H. bind_ok H. bind_ok H. bind_ok H. bind_ok H. injection H as <-.
  eexists _, _, _. repeat split; eassumption.
Qed.

Lemma analyze_accessibility_bounds (place_data : json) (w : World) (a : AccessibilityIntel) :
  analyze_accessibility place_data w = Ok a ->
  0 <= accessibility_score a /\ accessibility_score a <= 10.
Proof.
  intros H. apply analyze_accessibility_inv in H.
  destruct H as (categories & name & score & _ & _ & Hs & _ & ->).
  apply accessibility_score_bounds in Hs. destruct Hs as [Hlo Hhi]. split.
  - apply (py_round_ge 0); [now vm_compute | exact Hlo].
  - apply (py_round_le 100); [now vm_compute | exact Hhi].
Qed.

(** With falsy categories the three steps return at once: the base score,
    the default features and no recommendation; the name is not looked at. *)
Lemma analyze_accessibility_no_categories
    (fields : list (string * json)) (w : World) :
  truthy (dict_get fields "categories" (JArr [])) = false ->
  analyze_accessibility (JObj fields) w =
  Ok {| wheelchair_accessible := Qle_bool 7.0 5.0;
        accessibility_score := py_round 5.0 1;
        features := _default_features w;
        inclusive_recommendations :=
          {| mobility_friendly_areas := [];
             sensory_accommodations := [];
             cognitive_support := [] |};
        processing_time_ms := py_round (elapsed_ms (clock_accessibility w)) 2 |}.
Proof.
  intros H. unfold analyze_accessibility, _calculate_accessibility_score,
    _analyze_accessibility_features, _generate_inclusive_recommendations.
  cbn [py_get bind]. rewrite H. reflexivity.
Qed.

Lemma analyze_accessibility_total (place_data : json) (w : World) :
  well_typed_place place_data = true ->
  exists a, analyze_accessibility place_data w = Ok a.
Proof.
  intros H. destruct (well_typed_place_inv _ H) as (fields & n & -> & Hn & Hc).
  destruct (well_typed_categories_inv _ Hc) as [Hf | [Ht (first & rest & s & Hcat & Hs)]].
  - rewrite (analyze_accessibility_no_categories _ _ Hf). now eexists.
  - unfold analyze_accessibility, _calculate_accessibility_score,
      _analyze_accessibility_features, _generate_inclusive_recommendations.
    cbn [py_get bind]. rewrite Hn, Hcat.
    cbn [truthy negb py_getitem0 py_get bind]. rewrite Hs. cbn [py_lower bind].
    destruct (contains "library" (str_lower s)); cbn [bind]; [now eexists|].
    destruct (contains "restaurant" (str_lower s)); cbn [bind]; [now eexists|].
    destruct (contains "gym" (str_lower s)); cbn [bind]; now eexists.
Qed.

End Accessibility.

(** ** Scores of the three analyzers *)

Section Scores.
Context {py : PyBuiltins}.
Import BusinessIntelligenceEngine RealTimeContextEngine AccessibilityIntelligenceEngine.

(** C1. For every place the engines accept and every outcome of the random
    draws, the three analyzers return, and the scores of their results are
    within the documented ranges: popularity in [1, 10], sentiment in
    [1, 5], trending in [0, 10], accessibility in [0, 10] and the context
    confidence in [0.7, 0.95]. *)
Theorem scores_within_ranges (place_data : json) (w : World) :
  well_typed_place place_data = true ->
  valid_world w ->
  exists b c a,
    analyze_place place_data w = Ok b /\
    analyze_context place_data w = Ok c /\
    analyze_accessibility place_data w = Ok a /\
    1 <= popularity_score b <= 10 /\
    1 <= sentiment_score b <= 5 /\
    0 <= trending_score b <= 10 /\
    0 <= accessibility_score a <= 10 /\
    0.7 <= RealTimeContextEngine.confidence_score c <= 0.95.
Proof.
  intros Hwt (_ & _ & Hconf & _).
  destruct (analyze_place_total place_data w Hwt) as [b Hb].
  destruct (analyze_context_total place_data w Hwt) as [c Hc].
  destruct (analyze_accessibility_total place_data w Hwt) as [a Ha].
  exists b, c, a.
  destruct (analyze_place_bounds _ _ _ Hb) as (Hpop & Hsent & Htrend).
  pose proof (analyze_accessibility_bounds _ _ _ Ha) as Hacc.
  pose proof (analyze_context_bounds _ _ _ Hconf Hc) as Hcc.
  repeat split; try assumption; tauto.
Qed.

(** C2, as the code has it. The flag [wheelchair_accessible] of a result is
    the comparison [score >= 7.0] on the score before rounding, and the
    reported [accessibility_score] is that score rounded to one decimal.
    Hence the flag implies a reported score of at least 7.0, and a reported
    score above 7.0 implies the flag; they can differ only when the
    reported score is exactly 7.0. *)
Theorem wheelchair_flag_from_unrounded_score
    (place_data : json) (w : World) (a : AccessibilityIntel) :
  analyze_accessibility place_data w = Ok a ->
  exists categories name score,
    _calculate_accessibility_score categories name (u_accessibility w) = Ok score /\
    wheelchair_accessible a = Qle_bool 7.0 score /\
    accessibility_score a = py_round score 1 /\
    (wheelchair_accessible a = true -> 7.0 <= accessibility_score a) /\
    (7.0 < accessibility_score a -> wheelchair_accessible a = true).
Proof.
  intros H. apply analyze_accessibility_inv in H.
  destruct H as (categories & name & score & _ & _ & Hs & Hflag & Hscore).
  exists categories, name, score. repeat split; try assumption.
  - rewrite Hflag, Hscore, Qle_bool_iff. intros Hge.
    apply (py_round_ge 70); [now vm_compute | exact Hge].
  - rewrite Hflag, Hscore, Qle_bool_iff. intros Hgt.
    destruct (Qlt_le_dec score 7.0) as [Hlt | Hge]; [|exact Hge].
    exfalso. apply (Qlt_not_le _ _ Hgt).
    apply (py_round_le 70); [now vm_compute | lra].
Qed.

(** C9. With an empty or absent [categories] sequence the accessibility
    analyzer returns an [accessibility_score] of exactly 5.0 and
    [wheelchair_accessible] false, whatever the name (of any type) and the
    draws are. *)
Theorem no_categories_accessibility (fields : list (string * json)) (w : World) :
  dict_get fields "categories" (JArr []) = JArr [] ->
  exists a,
    analyze_accessibility (JObj fields) w = Ok a /\
    accessibility_score a == 5.0 /\
    wheelchair_accessible a = false.
Proof.
  intros H. eexists. split.
  - apply analyze_accessibility_no_categories. now rewrite H.
  - split; now vm_compute.
Qed.

End Scores.

Lemma scores_within_ranges_witness :
  exists b c a,
    BusinessIntelligenceEngine.analyze_place (py := AsciiBuiltins.builtins) starbucks morning
      = Ok b /\
    RealTimeContextEngine.analyze_context (py := AsciiBuiltins.builtins) starbucks morning
      = Ok c /\
    AccessibilityIntelligenceEngine.analyze_accessibility (py := AsciiBuiltins.builtins)
      starbucks morning = Ok a /\
    1 <= BusinessIntelligenceEngine.popularity_score b <= 10 /\
    1 <= BusinessIntelligenceEngine.sentiment_score b <= 5 /\
    0 <= BusinessIntelligenceEngine.trending_score b <= 10 /\
    0 <= AccessibilityIntelligenceEngine.accessibility_score a <= 10 /\
    0.7 <= RealTimeContextEngine.confidence_score c <= 0.95.
Proof.
  apply (@scores_within_ranges AsciiBuiltins.builtins starbucks morning).
  - reflexivity.
  - unfold valid_world, unit_interval. cbn. lra.
Defined.

(** At the gym of the sample request the draw gives a score of 6.96 before
    rounding: the flag is false and the reported score is 7.0. *)
Lemma wheelchair_flag_differs_from_reported_score :
  exists a,
    AccessibilityIntelligenceEngine.analyze_accessibility (py := AsciiBuiltins.builtins)
      iron_gym morning = Ok a /\
    AccessibilityIntelligenceEngine.wheelchair_accessible a = false /\
    Qle_bool 7.0 (AccessibilityIntelligenceEngine.accessibility_score a) = true.
Proof.
  eexists. split; [vm_compute; reflexivity|]. split; reflexivity.
Qed.

Lemma wheelchair_flag_from_unrounded_score_witness :
  exists a,
    AccessibilityIntelligenceEngine.analyze_accessibility (py := AsciiBuiltins.builtins)
      iron_gym morning = Ok a /\
    exists categories name score,
      AccessibilityIntelligenceEngine._calculate_accessibility_score
        (py := AsciiBuiltins.builtins) categories name (u_accessibility morning)
        = Ok score /\
      AccessibilityIntelligenceEngine.wheelchair_accessible a = Qle_bool 7.0 score /\
      AccessibilityIntelligenceEngine.accessibility_score a = py_round score 1 /\
      (AccessibilityIntelligenceEngine.wheelchair_accessible a = true ->
       7.0 <= AccessibilityIntelligenceEngine.accessibility_score a) /\
      (7.0 < AccessibilityIntelligenceEngine.accessibility_score a ->
       AccessibilityIntelligenceEngine.wheelchair_accessible a = true).
Proof.
  eexists. split; [vm_compute; reflexivity|].
  apply (@wheelchair_flag_from_unrounded_score AsciiBuiltins.builtins iron_gym morning).
  vm_compute. reflexivity.
Defined.

Lemma no_categories_accessibility_witness :
  exists a,
    AccessibilityIntelligenceEngine.analyze_accessibility (py := AsciiBuiltins.builtins)
      nameless_place morning = Ok a /\
    AccessibilityIntelligenceEngine.accessibility_score a == 5.0 /\
    AccessibilityIntelligenceEngine.wheelchair_accessible a = false.
Proof.
  apply (@no_categories_accessibility AsciiBuiltins.builtins
           [("name", JNum 7); ("categories", JArr [])] morning).
  reflexivity.
Defined.

(** ** Category branches *)

Section Categories.
Context {py : PyBuiltins}.

(** C3. The classifier of the business analyzer takes no draw and no clock
    reading. It returns [general] on an empty sequence; otherwise it
    is the first-match classifier of the specification applied to the
    lower-cased name of the first element, whatever the other elements and
    keys are; and it only returns one of the six internal categories. *)
Theorem classifier_first_match :
  BusinessIntelligenceEngine._get_primary_category (JArr []) = Ok "general" /\
  (forall (first : list (string * json)) (rest : list json) (label : string),
      dict_get first "name" (JStr "") = JStr label ->
      BusinessIntelligenceEngine._get_primary_category (JArr (JObj first :: rest))
      = Ok (classify (str_lower label))) /\
  (forall (categories : json) (category : string),
      BusinessIntelligenceEngine._get_primary_category categories = Ok category ->
      In category ["coffee"; "restaurant"; "gym"; "library"; "shopping"; "general"]).
Proof.
  split; [reflexivity|]. split.
  - intros first rest label Hname.
    unfold BusinessIntelligenceEngine._get_primary_category.
    cbn [truthy negb py_getitem0 py_get bind]. rewrite Hname. cbn [py_lower bind].
    unfold classify, keyword_sets. cbn [first_match existsb].
    rewrite !orb_false_r. reflexivity.
  - intros categories category H.
    unfold BusinessIntelligenceEngine._get_primary_category in H.
    destruct (negb (truthy categories)).
    + injection H as <-. cbn. tauto.
    + binds_ok H. injection H as <-.
      repeat match goal with
             | |- In (if ?c then _ else _) _ => destruct c
             end; cbn; tauto.
Qed.

(** C4, as the code has it. The crowd level is read from fixed sets of busy
    and moderate hours for three kinds of label, tested in this order: one
    that contains [restaurant], one that contains [coffee], one that
    contains [gym]. Every other label, [library] included, gets the element
    of [quiet, moderate, busy] that the random generator picks. *)
Theorem crowd_level_by_category (category : string) (hour : Z) (i : nat) :
  (contains "restaurant" category = true ->
   RealTimeContextEngine._estimate_crowd_level category hour i
   = crowd_by_hours [12; 13; 18; 19; 20]%Z [11; 14; 17; 21]%Z hour) /\
  (contains "restaurant" category = false -> contains "coffee" category = true ->
   RealTimeContextEngine._estimate_crowd_level category hour i
   = crowd_by_hours [7; 8; 9; 14; 15]%Z [10; 11; 16; 17]%Z hour) /\
  (contains "restaurant" category = false -> contains "coffee" category = false ->
   contains "gym" category = true ->
   RealTimeContextEngine._estimate_crowd_level category hour i
   = crowd_by_hours [6; 7; 17; 18; 19]%Z [8; 9; 16; 20]%Z hour) /\
  (contains "restaurant" category = false -> contains "coffee" category = false ->
   contains "gym" category = false ->
   RealTimeContextEngine._estimate_crowd_level category hour i
   = random_choice ["quiet"; "moderate"; "busy"] i "quiet").
Proof.
  unfold RealTimeContextEngine._estimate_crowd_level, crowd_by_hours.
  repeat split; intros; repeat match goal with H : contains _ _ = _ |- _ =>
    rewrite H; clear H end; reflexivity.
Qed.

(** C5. For every category and every hour, the trending score computed by
    the if/elif chain equals the score computed with the three time bonuses
    as independent conditions: no two of their guards hold together. *)
Theorem trending_chain_equals_independent (category : string) (hour : Z) :
  BusinessIntelligenceEngine._calculate_trending_score category hour
  = trending_independent category hour.
Proof.
  unfold BusinessIntelligenceEngine._calculate_trending_score, trending_independent,
    between.
  destruct (String.eqb_spec category "coffee") as [Hcoffee | Hcoffee];
    destruct (String.eqb_spec category "restaurant") as [Hrest | Hrest];
    try (exfalso; congruence);
    destruct (Z.leb_spec 7 hour), (Z.leb_spec hour 9), (Z.leb_spec 12 hour),
      (Z.leb_spec hour 14), (Z.leb_spec 18 hour), (Z.leb_spec hour 20);
    cbn [andb]; try reflexivity; lia.
Qed.

End Categories.

Lemma classifier_first_match_witness :
  BusinessIntelligenceEngine._get_primary_category (py := AsciiBuiltins.builtins)
    (JArr [JObj [("name", JStr "Coffee Shop")]])
  = Ok (classify (AsciiBuiltins.lower "Coffee Shop")) /\
  In "coffee" ["coffee"; "restaurant"; "gym"; "library"; "shopping"; "general"].
Proof.
  pose proof (@classifier_first_match AsciiBuiltins.builtins) as (_ & Hfirst & Hrange).
  split.
  - apply (Hfirst [("name", JStr "Coffee Shop")] [] "Coffee Shop"). reflexivity.
  - apply (Hrange (JArr [JObj [("name", JStr "Coffee Shop")]]) "coffee").
    vm_compute. reflexivity.
Defined.

(** At a library the crowd level follows the index the generator draws:
    two requests at the same hour get different levels. *)
Lemma library_crowd_level_is_drawn :
  exists c c',
    RealTimeContextEngine.analyze_context (py := AsciiBuiltins.builtins)
      city_library morning = Ok c /\
    RealTimeContextEngine.analyze_context (py := AsciiBuiltins.builtins)
      city_library morning_busy = Ok c' /\
    hour_context morning = hour_context morning_busy /\
    RealTimeContextEngine.crowd_level c = "quiet" /\
    RealTimeContextEngine.crowd_level c' = "busy".
Proof.
  eexists. eexists.
  split; [vm_compute; reflexivity|]. split; [vm_compute; reflexivity|].
  repeat split.
Qed.

Lemma crowd_level_by_category_witness :
  RealTimeContextEngine._estimate_crowd_level "coffee shop" 8 0 = "busy" /\
  RealTimeContextEngine._estimate_crowd_level "library" 8 2 = "busy".
Proof.
  pose proof (crowd_level_by_category "coffee shop" 8 0) as (_ & Hcoffee & _).
  pose proof (crowd_level_by_category "library" 8 2) as (_ & _ & _ & Hother).
  split.
  - rewrite Hcoffee; reflexivity.
  - rewrite Hother; reflexivity.
Defined.

(** C6. The two ways of reading the category disagree on some place: the
    business analyzer maps the label [food court] to [restaurant], while the
    context analyzer keeps a raw label without [restaurant] in it, so that
    its status follows the default hours and not the restaurant's (closed at
    7, when a restaurant is open). *)
Theorem business_and_context_read_categories_differently :
  exists categories label,
    py_get food_court "categories" (JArr []) = Ok categories /\
    BusinessIntelligenceEngine._get_primary_category (py := AsciiBuiltins.builtins)
      categories = Ok "restaurant" /\
    RealTimeContextEngine._get_primary_category (py := AsciiBuiltins.builtins)
      categories = Ok label /\
    contains "restaurant" label = false /\
    RealTimeContextEngine._determine_status label 7 = "closed" /\
    RealTimeContextEngine._determine_status "restaurant" 7 = "open".
Proof.
  eexists. eexists. split; [reflexivity|]. split; [reflexivity|].
  split; [vm_compute; reflexivity|]. repeat split.
Qed.

(** ** UnifiedRecommendationEngine *)

Section Synthesis.
Context {py : PyBuiltins}.
Import BusinessIntelligenceEngine RealTimeContextEngine AccessibilityIntelligenceEngine
       UnifiedRecommendationEngine.

Lemma slice_to_length {A : Type} (n : nat) (l : list A) :
  (length (slice_to n l) <= n)%nat.
Proof. apply firstn_le_length. Qed.

(** A slice is a prefix: it keeps the elements in their order and drops a
    tail. *)
Lemma slice_to_prefix {A : Type} (n : nat) (l : list A) :
  exists dropped, l = slice_to n l ++ dropped.
Proof. exists (skipn n l). symmetry. apply firstn_skipn. Qed.

Lemma suggest_alternatives_total (place_data : json) (b : BusinessIntel) :
  well_typed_place place_data = true ->
  exists alternatives, _suggest_alternatives place_data b = Ok alternatives.
Proof.
  intros H. destruct (well_typed_place_inv _ H) as (fields & n & -> & Hn & Hc).
  unfold _suggest_alternatives, alternatives_candidates. cbn [py_get bind].
  destruct (well_typed_categories_inv _ Hc) as [-> | [-> (first & rest & s & -> & Hs)]];
    cbn [negb bind]; [now eexists|].
  cbn [py_getitem0 py_get bind]. rewrite Hs. cbn [py_lower bind].
  destruct (contains "coffee" (str_lower s)); cbn [bind]; [now eexists|].
  destruct (contains "restaurant" (str_lower s)); cbn [bind]; [now eexists|].
  destruct (contains "gym" (str_lower s)); cbn [bind]; now eexists.
Qed.

Lemma generate_recommendations_inv
    (place_data : json) (b : BusinessIntel) (c : RealtimeContext)
    (a : AccessibilityIntel) (w : World) (u : UnifiedRecommendations) :
  generate_recommendations place_data b c a w = Ok u ->
  UnifiedRecommendationEngine.confidence_score u
  = py_round (_calculate_confidence_score b c a) 2 /\
  personalized_insights u = _generate_personalized_insights place_data b c a /\
  _suggest_alternatives place_data b = Ok (alternative_suggestions u) /\
  accessibility_notes u = _create_accessibility_notes a.
Proof.
  unfold generate_recommendations. intros H. bind_ok H. injection H as <-.
  repeat split. exact E.
Qed.

Lemma generate_recommendations_total
    (place_data : json) (b : BusinessIntel) (c : RealtimeContext)
    (a : AccessibilityIntel) (w : World) :
  well_typed_place place_data = true ->
  exists u, generate_recommendations place_data b c a w = Ok u.
Proof.
  intros H. unfold generate_recommendations.
  destruct (suggest_alternatives_total place_data b H) as [alternatives ->].
  cbn [bind]. now eexists.
Qed.

(** With a positive popularity and a context confidence of at least 0.7 the
    list of weights has two or three elements, and their mean is at least
    0.73. *)
Lemma confidence_lower_bound
    (b : BusinessIntel) (c : RealtimeContext) (a : AccessibilityIntel) :
  0 < popularity_score b ->
  0.7 <= RealTimeContextEngine.confidence_score c ->
  confidence_weights b c a <> [] /\ 0.73 <= _calculate_confidence_score b c a.
Proof.
  intros Hpop Hconf. unfold _calculate_confidence_score, confidence_weights.
  destruct (Qlt_le_dec 0 (popularity_score b)) as [_ | Hle]; [|lra].
  destruct (Qlt_le_dec 0 (RealTimeContextEngine.confidence_score c)) as [_ | Hle]; [|lra].
  destruct (Qlt_le_dec 0 (accessibility_score a)); cbn [app]; (split; [discriminate|]);
    unfold py_sum, py_len; cbn [fold_left length Z.of_nat Pos.of_succ_nat Pos.succ];
    unfold inject_Z; apply Qle_shift_div_l; lra.
Qed.

(** C7. Whatever the analyzers returned, the list of insights has at most 4
    elements and the list of accessibility notes at most 3, and every list
    of alternatives the engine returns has at most 3; each of the three is
    a prefix of the candidates in the order the checks appended them; and
    the alternatives are returned for every place the engines accept. *)
Theorem synthesis_lists_capped
    (place_data : json) (b : BusinessIntel) (c : RealtimeContext)
    (a : AccessibilityIntel) :
  ((length (_generate_personalized_insights place_data b c a) <= 4)%nat /\
   exists dropped,
     insights_candidates place_data b c a
     = _generate_personalized_insights place_data b c a ++ dropped) /\
  ((length (_create_accessibility_notes a) <= 3)%nat /\
   exists dropped, notes_candidates a = _create_accessibility_notes a ++ dropped) /\
  (forall alternatives,
      _suggest_alternatives place_data b = Ok alternatives ->
      (length alternatives <= 3)%nat /\
      exists candidates dropped,
        alternatives_candidates place_data b = Ok candidates /\
        candidates = alternatives ++ dropped) /\
  (well_typed_place place_data = true ->
   exists alternatives, _suggest_alternatives place_data b = Ok alternatives).
Proof.
  split; [|split; [|split]].
  - split; [apply slice_to_length | apply slice_to_prefix].
  - split; [apply slice_to_length | apply slice_to_prefix].
  - intros alternatives H. unfold _suggest_alternatives in H. bind_ok H.
    injection H as <-. split; [exact (slice_to_length 3 x)|].
    destruct (slice_to_prefix 3 x) as [dropped Hd].
    exists x, dropped. split; [exact E | exact Hd].
  - apply suggest_alternatives_total.
Qed.

End Synthesis.

(** ** The endpoint *)

Section EndpointProperties.
Context {py : PyBuiltins}.
Import BusinessIntelligenceEngine RealTimeContextEngine AccessibilityIntelligenceEngine
       UnifiedRecommendationEngine Endpoint.

Lemma run_engines_total (place_data : json) (w : World) :
  well_typed_place place_data = true ->
  exists b c a u,
    run_engines place_data w = Ok (b, c, a, u) /\
    analyze_place place_data w = Ok b /\
    analyze_context place_data w = Ok c /\
    analyze_accessibility place_data w = Ok a /\
    generate_recommendations place_data b c a w = Ok u.
Proof.
  intros H. unfold run_engines.
  destruct (analyze_place_total place_data w H) as [b Hb].
  destruct (analyze_context_total place_data w H) as [c Hc].
  destruct (analyze_accessibility_total place_data w H) as [a Ha].
  destruct (generate_recommendations_total place_data b c a w H) as [u Hu].
  exists b, c, a, u. rewrite Hb, Hc, Ha. cbn [bind]. rewrite Hu. now cbn [bind].
Qed.

(** The typing is exact: on any other place the first engine raises. *)
Lemma get_primary_category_raises (categories : json) :
  well_typed_categories categories = false ->
  exists e, BusinessIntelligenceEngine._get_primary_category categories = Raise e.
Proof.
  unfold well_typed_categories, BusinessIntelligenceEngine._get_primary_category.
  destruct (truthy categories) eqn:Ht; [|discriminate]. cbn [negb orb].
  destruct categories as [| b | q | s | [|first rest] | fields]; try discriminate Ht;
    intros H.
  - now eexists.
  - now eexists.
  - destruct s; [discriminate Ht | now eexists].
  - destruct first; try (now eexists).
    cbn [py_getitem0 py_get bind].
    destruct (dict_get fields "name" (JStr "")); try discriminate H; now eexists.
  - now eexists.
Qed.

Lemma analyze_place_raises (place_data : json) (w : World) :
  well_typed_place place_data = false ->
  exists e, analyze_place place_data w = Raise e.
Proof.
  destruct place_data; try (intros _; now eexists).
  cbn [well_typed_place]. intros H. unfold analyze_place. cbn [py_get bind].
  destruct (well_typed_categories (dict_get fields "categories" (JArr []))) eqn:Hc.
  - destruct (get_primary_category_total _ Hc) as [category ->]. cbn [bind].
    rewrite andb_true_r in H. unfold _calculate_popularity_score.
    destruct (dict_get fields "name" (JStr "")); try discriminate H; now eexists.
  - destruct (get_primary_category_raises _ Hc) as [e ->]. now eexists.
Qed.

Lemma enhance_rejected (data : json) (w : World) :
  rejected data = true ->
  enhance_place_intelligence data w
  = (JObj [("error",
            JStr (if truthy data then "No place data provided" else "No data provided"))],
     400%Z).
Proof.
  unfold rejected, enhance_place_intelligence, enhance_try.
  destruct (truthy data); cbn [negb orb]; [|reflexivity].
  destruct data; try discriminate. intros H. cbn [py_get bind]. now rewrite H.
Qed.

Lemma enhance_accepted (data : json) (w : World) :
  rejected data = false ->
  well_typed_body data = true ->
  exists fields b c a u,
    data = JObj fields /\
    run_engines (dict_get fields "place" (JObj [])) w = Ok (b, c, a, u) /\
    enhance_place_intelligence data w
    = (JObj [ ("business_intelligence", json_business b);
              ("real_time_context", json_context c);
              ("accessibility_intelligence", json_accessibility a);
              ("unified_recommendations", json_unified u);
              ("processing_time_ms", JNum (py_round (elapsed_ms (clock_endpoint w)) 2));
              ("data_sources",
               json_strings ["foursquare"; "ml_models"; "accessibility_db";
                             "real_time_feeds"]) ],
       200%Z).
Proof.
  unfold rejected, well_typed_body. destruct data; try discriminate.
  intros Hrej Hwt. apply orb_false_iff in Hrej. destruct Hrej as [Hdata Hplace].
  apply negb_false_iff in Hdata, Hplace.
  destruct (run_engines_total _ w Hwt) as (b & c & a & u & Hrun & _).
  exists fields, b, c, a, u. split; [reflexivity|]. split; [exact Hrun|].
  unfold enhance_place_intelligence, enhance_try. rewrite Hdata. cbn [negb py_get bind].
  rewrite Hplace. cbn [negb].
  destruct (well_typed_place_inv _ Hwt) as (pfields & n & Hp & _ & _).
  rewrite Hp in *. cbn [py_get bind]. rewrite Hrun. reflexivity.
Qed.

Lemma enhance_failed (data : json) (w : World) :
  rejected data = false ->
  well_typed_body data = false ->
  exists e,
    enhance_place_intelligence data w
    = (JObj [("error", JStr "Internal server error"); ("message", JStr (exn_message e))],
       500%Z).
Proof.
  unfold rejected, well_typed_body, enhance_place_intelligence, enhance_try.
  intros Hrej Hwt. apply orb_false_iff in Hrej. destruct Hrej as [Hdata Hplace].
  apply negb_false_iff in Hdata. rewrite Hdata. cbn [negb].
  destruct data; try (now eexists).
  apply negb_false_iff in Hplace. cbn [py_get bind]. rewrite Hplace. cbn [negb].
  destruct (dict_get fields "place" (JObj [])) eqn:Hp; try (now eexists).
  cbn [py_get bind]. unfold run_engines.
  destruct (analyze_place_raises _ w Hwt) as [e ->]. now eexists.
Qed.

(** C10. For every place the engines accept and every outcome of the
    draws, the four engines return; the popularity score is at least 1 and
    the context confidence at least 0.7, so the list of weights of the
    synthesis is not empty, its default of 0.5 is not used, and the
    synthesized confidence is at least 0.73. *)
Theorem default_confidence_unreachable (place_data : json) (w : World) :
  well_typed_place place_data = true ->
  valid_world w ->
  exists b c a u,
    run_engines place_data w = Ok (b, c, a, u) /\
    1 <= popularity_score b /\
    0.7 <= RealTimeContextEngine.confidence_score c /\
    confidence_weights b c a <> [] /\
    0.73 <= UnifiedRecommendationEngine.confidence_score u.
Proof.
  intros Hwt (_ & _ & Hconf & _).
  destruct (run_engines_total place_data w Hwt) as (b & c & a & u & Hrun & Hb & Hc & _ & Hu).
  exists b, c, a, u. split; [exact Hrun|].
  destruct (analyze_place_bounds _ _ _ Hb) as ((Hpop & _) & _).
  destruct (analyze_context_bounds _ _ _ Hconf Hc) as (Hlo & _).
  destruct (confidence_lower_bound b c a) as [Hne Hmean]; [lra | exact Hlo |].
  repeat split; try assumption.
  apply generate_recommendations_inv in Hu. destruct Hu as (-> & _).
  apply (py_round_ge 73); [now vm_compute | exact Hmean].
Qed.

(** A parsed body is answered 400 exactly when it is rejected. *)
Lemma enhance_status_400 (data : json) (w : World) :
  snd (enhance_place_intelligence data w) = 400%Z <-> rejected data = true.
Proof.
  split.
  - intros H. destruct (rejected data) eqn:Hrej; [reflexivity|]. exfalso.
    destruct (well_typed_body data) eqn:Hwt.
    + destruct (enhance_accepted data w Hrej Hwt) as (? & ? & ? & ? & ? & _ & _ & Heq).
      rewrite Heq in H. discriminate H.
    + destruct (enhance_failed data w Hrej Hwt) as (? & Heq).
      rewrite Heq in H. discriminate H.
  - intros Hrej. now rewrite (enhance_rejected data w Hrej).
Qed.

(** C8. A request without a body to parse is answered 500, not 400.
    The endpoint means to answer such a request 400, "No data provided",
    through its guard [if not data]; but [request.get_json()] stands
    inside the [try] block and raises there, so the [except] answers 500,
    "Internal server error": for a content type that is not JSON, and for
    every body that does not parse, the empty body included. A 400 is only
    ever the answer to a body that parsed, to a falsy value or to an object
    whose [place] is missing or falsy. *)
Theorem missing_body_answers_500 (w : World) :
  enhance_request NotJson w
  = (JObj [("error", JStr "Internal server error");
           ("message", JStr "UnsupportedMediaType")], 500%Z) /\
  (forall body,
      enhance_request (BadJson body) w
      = (JObj [("error", JStr "Internal server error");
               ("message", JStr "BadRequest")], 500%Z)) /\
  (forall request,
      snd (enhance_request request w) = 400%Z ->
      exists data, request = Json data /\ rejected data = true).
Proof.
  split; [reflexivity|]. split; [reflexivity|].
  intros [| body | data] H; try discriminate H.
  exists data. split; [reflexivity|]. now apply (enhance_status_400 data w).
Qed.

(** X21. Once [request.get_json()] has returned a value, the endpoint
    answers 400 exactly when that value is falsy, or is an object whose
    [place] is missing or falsy (an empty object, but also null, false, 0,
    an empty string or an empty list); the answer is then a single [error]
    field and no engine runs, so that it does not depend on the draws or
    the clock. For every other value whose place has the types the engines
    rely on, the answer is 200 with the six documented keys; for every
    other value, it is 500. *)
Theorem enhance_status (data : json) (w : World) :
  (snd (enhance_place_intelligence data w) = 400%Z <-> rejected data = true) /\
  (rejected data = true ->
   (exists message,
       fst (enhance_place_intelligence data w) = JObj [("error", JStr message)]) /\
   forall w', enhance_place_intelligence data w' = enhance_place_intelligence data w) /\
  (rejected data = false -> well_typed_body data = true ->
   snd (enhance_place_intelligence data w) = 200%Z /\
   forallb (has_key (fst (enhance_place_intelligence data w)))
     ["business_intelligence"; "real_time_context"; "accessibility_intelligence";
      "unified_recommendations"; "processing_time_ms"; "data_sources"] = true) /\
  (rejected data = false -> well_typed_body data = false ->
   snd (enhance_place_intelligence data w) = 500%Z /\
   has_key (fst (enhance_place_intelligence data w)) "error" = true).
Proof.
  split; [|split; [|split]].
  - apply enhance_status_400.
  - intros Hrej. split.
    + rewrite (enhance_rejected data w Hrej). now eexists.
    + intros w'. now rewrite !(enhance_rejected data _ Hrej).
  - intros Hrej Hwt.
    destruct (enhance_accepted data w Hrej Hwt) as (? & ? & ? & ? & ? & _ & _ & ->).
    split; reflexivity.
  - intros Hrej Hwt. destruct (enhance_failed data w Hrej Hwt) as (? & ->).
    split; reflexivity.
Qed.

End EndpointProperties.

Lemma synthesis_lists_capped_witness :
  (length (UnifiedRecommendationEngine._generate_personalized_insights
             (py := AsciiBuiltins.builtins) city_library popular_business quiet_context
             accessible_intel) <= 4)%nat /\
  (length (UnifiedRecommendationEngine._create_accessibility_notes accessible_intel)
   <= 3)%nat /\
  exists alternatives,
    UnifiedRecommendationEngine._suggest_alternatives (py := AsciiBuiltins.builtins)
      starbucks popular_business = Ok alternatives /\
    (length alternatives <= 3)%nat.
Proof.
  pose proof (@synthesis_lists_capped AsciiBuiltins.builtins city_library popular_business
                quiet_context accessible_intel) as ((Hinsights & _) & (Hnotes & _) & _).
  pose proof (@synthesis_lists_capped AsciiBuiltins.builtins starbucks popular_business
                quiet_context accessible_intel) as (_ & _ & Hcap & Htotal).
  split; [exact Hinsights|]. split; [exact Hnotes|].
  destruct (Htotal eq_refl) as [alternatives Halt].
  exists alternatives. split; [exact Halt|]. exact (proj1 (Hcap alternatives Halt)).
Defined.

Lemma default_confidence_unreachable_witness :
  exists b c a u,
    Endpoint.run_engines (py := AsciiBuiltins.builtins) starbucks morning
    = Ok (b, c, a, u) /\
    1 <= BusinessIntelligenceEngine.popularity_score b /\
    0.7 <= RealTimeContextEngine.confidence_score c /\
    UnifiedRecommendationEngine.confidence_weights b c a <> [] /\
    0.73 <= UnifiedRecommendationEngine.confidence_score u.
Proof.
  apply (@default_confidence_unreachable AsciiBuiltins.builtins starbucks morning).
  - reflexivity.
  - unfold valid_world, unit_interval. cbn. lra.
Defined.

Lemma missing_body_answers_500_witness :
  snd (enhance_request (py := AsciiBuiltins.builtins) (BadJson "") morning) = 500%Z /\
  exists data,
    Json (JObj []) = Json data /\ rejected data = true.
Proof.
  pose proof (@missing_body_answers_500 AsciiBuiltins.builtins morning)
    as (_ & Hbad & Hrej).
  split.
  - rewrite (Hbad ""). reflexivity.
  - apply (Hrej (Json (JObj []))). reflexivity.
Defined.

Lemma enhance_status_witness :
  snd (Endpoint.enhance_place_intelligence (py := AsciiBuiltins.builtins)
         (JObj [("place", starbucks)]) morning) = 200%Z /\
  snd (Endpoint.enhance_place_intelligence (py := AsciiBuiltins.builtins)
         (JObj [("place", JNum 0)]) morning) = 400%Z /\
  snd (Endpoint.enhance_place_intelligence (py := AsciiBuiltins.builtins)
         (JObj [("place", JStr "here")]) morning) = 500%Z.
Proof.
  pose proof (@enhance_status AsciiBuiltins.builtins (JObj [("place", starbucks)]) morning)
    as (_ & _ & Hok & _).
  pose proof (@enhance_status AsciiBuiltins.builtins (JObj [("place", JNum 0)]) morning)
    as (Hrej & _).
  pose proof (@enhance_status AsciiBuiltins.builtins (JObj [("place", JStr "here")]) morning)
    as (_ & _ & _ & Hfail).
  split; [exact (proj1 (Hok eq_refl eq_refl))|].
  split; [exact (proj2 Hrej eq_refl)|].
  exact (proj1 (Hfail eq_refl eq_refl)).
Defined.

(** ** The examples of the specification *)

Section Examples.
Import BusinessIntelligenceEngine AccessibilityIntelligenceEngine.

(** "Starbucks Downtown", a "Coffee Shop": classified as coffee, with the
    brand bonus (5.0 + 2.0 + 1.5 + 0.5 from the draw) and a cozy
    atmosphere. *)
Example starbucks_business :
  exists b,
    analyze_place (py := AsciiBuiltins.builtins) starbucks morning = Ok b /\
    popularity_score b == 9.0 /\ atmosphere b = "cozy" /\
    _get_primary_category (py := AsciiBuiltins.builtins) (JArr [JObj [("name", JStr "Coffee Shop")]])
    = Ok "coffee".
Proof.
  eexists. split; [vm_compute; reflexivity|]. repeat split.
Qed.

(** "City Library", a "Library": an elevator and braille signage. *)
Example city_library_features :
  exists a,
    analyze_accessibility (py := AsciiBuiltins.builtins) city_library morning = Ok a /\
    elevator (features a) = true /\ braille_signage (features a) = true.
Proof.
  eexists. split; [vm_compute; reflexivity|]. repeat split.
Qed.

(** No categories: unknown price range and atmosphere, nothing else. *)
Example no_categories_business :
  exists b,
    analyze_place (py := AsciiBuiltins.builtins) (JObj [("name", JStr "Somewhere")]) morning = Ok b /\
    price_range b = "unknown" /\ atmosphere b = "unknown" /\
    specialties b = [] /\ ideal_for b = [].
Proof.
  eexists. split; [vm_compute; reflexivity|]. repeat split.
Qed.

End Examples.

(** * Further properties of the engines *)

(** ** Scores: which clamps can act *)

Section ScoreFloors.
Context {py : PyBuiltins}.
Import BusinessIntelligenceEngine RealTimeContextEngine AccessibilityIntelligenceEngine
       UnifiedRecommendationEngine Endpoint.

Lemma popularity_floor (name categories location : json) (u score : Q) :
  unit_interval u ->
  _calculate_popularity_score name categories location u = Ok score ->
  4 <= score.
Proof.
  unfold _calculate_popularity_score, unit_interval. intros [Hu0 Hu1] H.
  bind_ok H. bind_ok H. bind_ok H. injection H as <-.
  assert (Hx0 : 5 <= x0).
  { destruct (existsb _ _); [injection E0 as <-; lra|].
    bind_ok E0. injection E0 as <-. destruct (3 <? length x2)%nat; lra. }
  assert (Hx1 : 5 <= x1).
  { destruct (truthy categories); [|injection E1 as <-; exact Hx0].
    binds_ok E1. injection E1 as <-.
    destruct (contains "coffee" _); [lra|]. destruct (contains "restaurant" _); lra. }
  unfold py_max, py_min, uniform.
  destruct (Qlt_le_dec _ 10.0); destruct (Qlt_le_dec 1.0 _); lra.
Qed.

(** Adding 0.5 (or removing 0.3) once per keyword found moves the sentiment
    by at most that amount per keyword of the list. *)
Lemma fold_bonus_range (found : string -> bool) (d : Q) (words : list string) (s : Q) :
  0 <= d ->
  s <= fold_left (fun acc word => if found word then acc + d else acc) words s /\
  fold_left (fun acc word => if found word then acc + d else acc) words s
  <= s + d * inject_Z (Z.of_nat (length words)).
Proof.
  intros Hd. revert s. induction words as [|word words IH]; intros s.
  - cbn [fold_left length Z.of_nat]. unfold inject_Z. lra.
  - cbn [fold_left length]. rewrite Nat2Z.inj_succ, <- Z.add_1_r, inject_Z_plus.
    change (inject_Z 1) with 1.
    destruct (found word); [destruct (IH (s + d)) | destruct (IH s)]; split; nra.
Qed.

Lemma fold_malus_range (found : string -> bool) (d : Q) (words : list string) (s : Q) :
  0 <= d ->
  s - d * inject_Z (Z.of_nat (length words))
  <= fold_left (fun acc word => if found word then acc - d else acc) words s /\
  fold_left (fun acc word => if found word then acc - d else acc) words s <= s.
Proof.
  intros Hd. revert s. induction words as [|word words IH]; intros s.
  - cbn [fold_left length Z.of_nat]. unfold inject_Z. lra.
  - cbn [fold_left length]. rewrite Nat2Z.inj_succ, <- Z.add_1_r, inject_Z_plus.
    change (inject_Z 1) with 1.
    destruct (found word); [destruct (IH (s - d)) | destruct (IH s)]; split; nra.
Qed.

Lemma category_sentiment_range (category : string) :
  3.5 <= dict_get category_sentiment category 3.5 /\
  dict_get category_sentiment category 3.5 <= 4.2.
Proof.
  unfold dict_get, category_sentiment. cbn [dict_lookup].
  repeat match goal with
         | |- context [if (?a =? ?b)%string then _ else _] => destruct (a =? b)%string
         end; lra.
Qed.

Lemma Ok_inj {A : Type} (a b : A) : Ok a = Ok b -> a = b.
Proof. intros H. now injection H. Qed.

Lemma sentiment_floor (name : json) (category : string) (u score : Q) :
  unit_interval u ->
  _analyze_sentiment name category u = Ok score ->
  2.55 <= score.
Proof.
  unfold _analyze_sentiment, unit_interval. intros [Hu0 Hu1] H.
  bind_ok H. apply Ok_inj in H. subst score. cbv beta zeta.
  pose proof (category_sentiment_range category) as [Hb0 Hb1].
  match goal with
  | |- context [fold_left ?f positive_words ?s] => set (pos := fold_left f positive_words s)
  end.
  assert (Hpos : 3.5 <= pos)
    by (apply (fold_bonus_range (fun word => contains word x) 0.5); lra).
  match goal with
  | |- context [fold_left ?f negative_words pos] => set (neg := fold_left f negative_words pos)
  end.
  assert (Hneg : pos - 0.3 * inject_Z (Z.of_nat (length negative_words)) <= neg)
    by (apply (fold_malus_range (fun word => contains word x) 0.3); lra).
  cbn [negative_words length Z.of_nat Pos.of_succ_nat Pos.succ] in Hneg.
  unfold inject_Z in Hneg.
  assert (Hmean : 3.05 <= (neg + dict_get category_sentiment category 3.5) / 2)
    by (apply Qle_shift_div_l; lra).
  unfold py_max, py_min, uniform.
  destruct (Qlt_le_dec _ 5.0); destruct (Qlt_le_dec 1.0 _); lra.
Qed.

(** X1. With draws in [0, 1), the popularity of a result is never below 4
    and its sentiment never below 2.5: the lower bound 1.0 of both clamps
    cannot act. *)
Theorem business_scores_floor (place_data : json) (w : World) (b : BusinessIntel) :
  valid_world w ->
  analyze_place place_data w = Ok b ->
  4 <= popularity_score b /\ 2.5 <= sentiment_score b.
Proof.
  intros (Hp & Hs & _) H. apply analyze_place_inv in H.
  destruct H as (name & categories & location & category & popularity & sentiment
                 & Hpop & Hsent & -> & -> & _).
  apply (popularity_floor _ _ _ _ _ Hp) in Hpop.
  apply (sentiment_floor _ _ _ _ Hs) in Hsent. split.
  - apply (py_round_ge 40); [now vm_compute | exact Hpop].
  - apply (py_round_ge 25); [now vm_compute | lra].
Qed.

(** X2. Whatever the category and the hour, the trending score lies between
    5.0 and 9.5: the clamp to [0, 10] never changes it. *)
Theorem trending_between_5_and_9_5 (category : string) (hour : Z) :
  5.0 <= _calculate_trending_score category hour /\
  _calculate_trending_score category hour <= 9.5.
Proof.
  unfold _calculate_trending_score, dict_get, trending_categories. cbn [dict_lookup].
  rewrite !(String.eqb_sym _ category).
  destruct (category =? "coffee")%string eqn:Hcoffee.
  - apply String.eqb_eq in Hcoffee. subst category. cbn [String.eqb Ascii.eqb Bool.eqb andb].
    rewrite !andb_false_r, andb_true_r.
    unfold py_max, py_min. destruct (between 7 hour 9);
      destruct (Qlt_le_dec _ 10.0); destruct (Qlt_le_dec 0.0 _); lra.
  - rewrite !andb_false_r.
    destruct (category =? "gym")%string eqn:Hgym.
    + apply String.eqb_eq in Hgym. subst category.
      cbn [String.eqb Ascii.eqb Bool.eqb andb]. rewrite !andb_false_r.
      unfold py_max, py_min. destruct (Qlt_le_dec _ 10.0); destruct (Qlt_le_dec 0.0 _); lra.
    + destruct (category =? "restaurant")%string;
        [|destruct (category =? "library")%string;
          [|destruct (category =? "shopping")%string]];
        rewrite ?andb_false_r, ?andb_true_r; unfold py_max, py_min;
        destruct (between 12 hour 14); destruct (between 18 hour 20);
        destruct (Qlt_le_dec _ 10.0); destruct (Qlt_le_dec 0.0 _); lra.
Qed.

End ScoreFloors.

(** ** Accessibility: who is reported wheelchair accessible *)

Section AccessibilityRules.
Context {py : PyBuiltins}.
Import BusinessIntelligenceEngine RealTimeContextEngine AccessibilityIntelligenceEngine
       UnifiedRecommendationEngine Endpoint.

Lemma accessibility_floor (categories name : json) (u score : Q) :
  unit_interval u ->
  _calculate_accessibility_score categories name u = Ok score ->
  4 <= score.
Proof.
  unfold _calculate_accessibility_score, unit_interval. intros [Hu0 Hu1] H.
  destruct (negb (truthy categories)); [apply Ok_inj in H; subst score; lra|].
  binds_ok H. apply Ok_inj in H. subst score. cbv beta zeta.
  unfold py_max, py_min, uniform.
  destruct (existsb _ _);
    (destruct (_ || _); [|destruct (_ && _); [|destruct (contains "gym" _)]]);
    destruct (Qlt_le_dec _ 10.0); destruct (Qlt_le_dec 0.0 _); lra.
Qed.

Lemma analyze_accessibility_floor (place_data : json) (w : World) (a : AccessibilityIntel) :
  unit_interval (u_accessibility w) ->
  analyze_accessibility place_data w = Ok a ->
  4 <= accessibility_score a.
Proof.
  intros Hu H. apply analyze_accessibility_inv in H.
  destruct H as (categories & name & score & _ & _ & Hs & _ & ->).
  apply (accessibility_floor _ _ _ _ Hu) in Hs.
  apply (py_round_ge 40); [now vm_compute | exact Hs].
Qed.

Lemma run_engines_inv
    (place_data : json) (w : World) (b : BusinessIntel) (c : RealtimeContext)
    (a : AccessibilityIntel) (u : UnifiedRecommendations) :
  run_engines place_data w = Ok (b, c, a, u) ->
  analyze_place place_data w = Ok b /\
  analyze_context place_data w = Ok c /\
  analyze_accessibility place_data w = Ok a /\
  generate_recommendations place_data b c a w = Ok u.
Proof.
  unfold run_engines. intros H. bind_ok H. bind_ok H. bind_ok H. bind_ok H.
  injection H as <- <- <- <-. repeat split; assumption.
Qed.

(** X3. In a request that the four engines complete, with draws in [0, 1),
    the synthesis always collects the three weights 0.8, the context
    confidence and 0.7, and its confidence lies between 0.73 and 0.82. *)
Theorem pipeline_confidence_range
    (place_data : json) (w : World) (b : BusinessIntel) (c : RealtimeContext)
    (a : AccessibilityIntel) (u : UnifiedRecommendations) :
  valid_world w ->
  run_engines place_data w = Ok (b, c, a, u) ->
  confidence_weights b c a = [0.8; RealTimeContextEngine.confidence_score c; 0.7] /\
  0.73 <= UnifiedRecommendationEngine.confidence_score u /\
  UnifiedRecommendationEngine.confidence_score u <= 0.82.
Proof.
  intros (_ & _ & Hconf & Hacc) H. apply run_engines_inv in H.
  destruct H as (Hb & Hc & Ha & Hu).
  destruct (analyze_place_bounds _ _ _ Hb) as ((Hpop & _) & _).
  destruct (analyze_context_bounds _ _ _ Hconf Hc) as (Hlo & Hhi).
  pose proof (analyze_accessibility_floor _ _ _ Hacc Ha) as Hfloor.
  apply generate_recommendations_inv in Hu. destruct Hu as (-> & _).
  unfold _calculate_confidence_score, confidence_weights.
  destruct (Qlt_le_dec 0 (popularity_score b)) as [_ | Hle]; [|lra].
  destruct (Qlt_le_dec 0 (RealTimeContextEngine.confidence_score c)) as [_ | Hle]; [|lra].
  destruct (Qlt_le_dec 0 (accessibility_score a)) as [_ | Hle]; [|lra].
  cbn [app]. split; [reflexivity|].
  unfold py_sum, py_len. cbn [fold_left length Z.of_nat Pos.of_succ_nat Pos.succ].
  unfold inject_Z. split.
  - apply (py_round_ge 73); [now vm_compute|]. apply Qle_shift_div_l; lra.
  - apply (py_round_le 82); [now vm_compute|]. apply Qle_shift_div_r; lra.
Qed.

Lemma library_score
    (first : list (string * json)) (rest : list json) (label : string) (name : json)
    (u score : Q) :
  dict_get first "name" (JStr "") = JStr label ->
  contains "library" (str_lower label) || contains "hospital" (str_lower label) = true ->
  unit_interval u ->
  _calculate_accessibility_score (JArr (JObj first :: rest)) name u = Ok score ->
  7 <= score.
Proof.
  unfold _calculate_accessibility_score, unit_interval. intros Hname Hlib [Hu0 Hu1].
  cbn [truthy negb py_getitem0 py_get bind]. rewrite Hname. cbn [py_lower bind].
  intros H. bind_ok H. apply Ok_inj in H. subst score. cbv beta zeta.
  rewrite Hlib. unfold py_max, py_min, uniform.
  destruct (existsb _ _); destruct (Qlt_le_dec _ 10.0); destruct (Qlt_le_dec 0.0 _); lra.
Qed.

Lemma plain_score
    (first : list (string * json)) (rest : list json) (label n : string) (u score : Q) :
  dict_get first "name" (JStr "") = JStr label ->
  existsb (fun word => contains word (str_lower n)) ["new"; "modern"; "center"; "mall"]
  = false ->
  contains "library" (str_lower label) || contains "hospital" (str_lower label) = false ->
  contains "restaurant" (str_lower label) && contains "chain" (str_lower n) = false ->
  contains "gym" (str_lower label) = false ->
  unit_interval u ->
  _calculate_accessibility_score (JArr (JObj first :: rest)) (JStr n) u = Ok score ->
  score < 6.
Proof.
  unfold _calculate_accessibility_score, unit_interval.
  intros Hname Hmodern Hlib Hchain Hgym [Hu0 Hu1].
  cbn [truthy negb py_getitem0 py_get bind]. rewrite Hname. cbn [py_lower bind].
  intros H. apply Ok_inj in H. subst score.
  rewrite Hmodern, Hlib, Hchain, Hgym. unfold py_max, py_min, uniform.
  destruct (Qlt_le_dec _ 10.0); destruct (Qlt_le_dec 0.0 _); lra.
Qed.

Lemma place_with_category_well_typed
    (fields first : list (string * json)) (rest : list json) (label n : string) :
  dict_get fields "name" (JStr "") = JStr n ->
  dict_get fields "categories" (JArr []) = JArr (JObj first :: rest) ->
  dict_get first "name" (JStr "") = JStr label ->
  well_typed_place (JObj fields) = true.
Proof.
  intros Hn Hcat Hname. cbn [well_typed_place]. rewrite Hn, Hcat.
  cbn [is_str andb well_typed_categories truthy negb orb]. now rewrite Hname.
Qed.

(** X4. A place whose primary category mentions a library or a hospital is
    always reported wheelchair accessible, with a score of at least 7.0,
    whatever the draw in [0, 1) is. *)
Theorem library_or_hospital_is_accessible
    (fields first : list (string * json)) (rest : list json) (label n : string)
    (w : World) :
  dict_get fields "name" (JStr "") = JStr n ->
  dict_get fields "categories" (JArr []) = JArr (JObj first :: rest) ->
  dict_get first "name" (JStr "") = JStr label ->
  contains "library" (str_lower label) || contains "hospital" (str_lower label) = true ->
  unit_interval (u_accessibility w) ->
  exists a,
    analyze_accessibility (JObj fields) w = Ok a /\
    wheelchair_accessible a = true /\
    7 <= accessibility_score a.
Proof.
  intros Hn Hcat Hname Hlib Hu.
  pose proof (place_with_category_well_typed _ _ _ _ _ Hn Hcat Hname) as Hwt.
  destruct (analyze_accessibility_total _ w Hwt) as [a Ha]. exists a.
  split; [exact Ha|]. apply analyze_accessibility_inv in Ha.
  destruct Ha as (categories & name & score & Hc & _ & Hs & -> & ->).
  cbn [py_get] in Hc. apply Ok_inj in Hc. rewrite Hcat in Hc. subst categories.
  apply (library_score _ _ _ _ _ _ Hname Hlib Hu) in Hs. split.
  - apply Qle_bool_iff. lra.
  - apply (py_round_ge 70); [now vm_compute | exact Hs].
Qed.

(** X5. A place that earns no bonus (no "new", "modern", "center" or "mall"
    in its name; a category that mentions neither a library, a hospital nor
    a gym, and no restaurant of a chain) is never reported wheelchair
    accessible: its score stays at 6.0 or below. *)
Theorem plain_place_is_not_accessible
    (fields first : list (string * json)) (rest : list json) (label n : string)
    (w : World) :
  dict_get fields "name" (JStr "") = JStr n ->
  dict_get fields "categories" (JArr []) = JArr (JObj first :: rest) ->
  dict_get first "name" (JStr "") = JStr label ->
  existsb (fun word => contains word (str_lower n)) ["new"; "modern"; "center"; "mall"]
  = false ->
  contains "library" (str_lower label) || contains "hospital" (str_lower label) = false ->
  contains "restaurant" (str_lower label) && contains "chain" (str_lower n) = false ->
  contains "gym" (str_lower label) = false ->
  unit_interval (u_accessibility w) ->
  exists a,
    analyze_accessibility (JObj fields) w = Ok a /\
    wheelchair_accessible a = false /\
    accessibility_score a <= 6.
Proof.
  intros Hn Hcat Hname Hmodern Hlib Hchain Hgym Hu.
  pose proof (place_with_category_well_typed _ _ _ _ _ Hn Hcat Hname) as Hwt.
  destruct (analyze_accessibility_total _ w Hwt) as [a Ha]. exists a.
  split; [exact Ha|]. apply analyze_accessibility_inv in Ha.
  destruct Ha as (categories & name & score & Hc & Hnm & Hs & -> & ->).
  cbn [py_get] in Hc, Hnm. apply Ok_inj in Hc. apply Ok_inj in Hnm.
  rewrite Hcat in Hc. rewrite Hn in Hnm. subst categories name.
  apply (plain_score _ _ _ _ _ _ Hname Hmodern Hlib Hchain Hgym Hu) in Hs. split.
  - destruct (Qle_bool 7.0 score) eqn:Hq; [|reflexivity].
    apply Qle_bool_iff in Hq. lra.
  - apply (py_round_le 60); [now vm_compute | lra].
Qed.

End AccessibilityRules.

(** ** Business analyzer: categories *)

Section BusinessCategories.
Context {py : PyBuiltins}.
Import BusinessIntelligenceEngine.

Lemma trending_general (hour : Z) :
  _calculate_trending_score "general" hour = py_max 0.0 (py_min 10.0 5.0).
Proof.
  unfold _calculate_trending_score. cbn [String.eqb Ascii.eqb Bool.eqb].
  now rewrite !andb_false_r.
Qed.

(** X6. Without categories (absent, empty or otherwise falsy) the business
    analyzer describes the place by its defaults: no specialties, nothing
    it is ideal for, an unknown price range and atmosphere, and a trending
    score of 5.0 at every hour. *)
Theorem no_categories_business_defaults
    (fields : list (string * json)) (n : string) (w : World) :
  dict_get fields "name" (JStr "") = JStr n ->
  truthy (dict_get fields "categories" (JArr [])) = false ->
  exists b,
    analyze_place (JObj fields) w = Ok b /\
    specialties b = [] /\ ideal_for b = [] /\
    price_range b = "unknown" /\ atmosphere b = "unknown" /\
    trending_score b == 5.0.
Proof.
  intros Hn Hc. unfold analyze_place, _get_primary_category, _calculate_popularity_score,
    _analyze_sentiment.
  cbn [py_get bind]. rewrite Hn, Hc. cbn [negb py_lower py_split bind].
  destruct (existsb _ _); cbn [bind]; eexists; (split; [reflexivity|]);
    cbn [specialties ideal_for price_range atmosphere trending_score];
    rewrite trending_general; repeat split.
Qed.

(** X7. The two ways of reading the primary category agree up to the
    classifier: on every value of [categories], the business category is the
    classification of the raw label the context analyzer keeps, and one
    raises exactly when the other does. *)
Theorem business_category_classifies_context_label (categories : json) :
  _get_primary_category categories
  = (label <- RealTimeContextEngine._get_primary_category categories ;;
     Ok (classify label)).
Proof.
  unfold _get_primary_category, RealTimeContextEngine._get_primary_category.
  destruct (negb (truthy categories)); [reflexivity|].
  destruct (py_getitem0 categories) as [first|]; [|reflexivity]. cbn [bind].
  destruct (py_get first "name" (JStr "")) as [name|]; [|reflexivity]. cbn [bind].
  destruct (py_lower name) as [label|]; [|reflexivity]. cbn [bind].
  unfold classify, keyword_sets. cbn [first_match existsb].
  now rewrite !orb_false_r.
Qed.

(** X8. The precedence of the keywords differs between the analyzers: for
    a label that mentions both coffee and a restaurant, the business
    analyzer answers [coffee], while the context analyzer applies the
    opening hours and the busy hours of a restaurant. *)
Theorem coffee_restaurant_precedence
    (first : list (string * json)) (rest : list json) (label : string)
    (hour : Z) (i : nat) :
  dict_get first "name" (JStr "") = JStr label ->
  contains "coffee" (str_lower label) = true ->
  contains "restaurant" (str_lower label) = true ->
  _get_primary_category (JArr (JObj first :: rest)) = Ok "coffee" /\
  RealTimeContextEngine._get_primary_category (JArr (JObj first :: rest))
  = Ok (str_lower label) /\
  RealTimeContextEngine._determine_status (str_lower label) hour
  = (if between 6 hour 23 then "open" else "closed") /\
  RealTimeContextEngine._estimate_crowd_level (str_lower label) hour i
  = crowd_by_hours [12; 13; 18; 19; 20]%Z [11; 14; 17; 21]%Z hour.
Proof.
  intros Hname Hcoffee Hrest.
  unfold _get_primary_category, RealTimeContextEngine._get_primary_category,
    RealTimeContextEngine._determine_status, RealTimeContextEngine._estimate_crowd_level,
    crowd_by_hours.
  cbn [truthy negb py_getitem0 py_get bind]. rewrite Hname. cbn [py_lower bind].
  rewrite Hcoffee, Hrest. repeat split.
Qed.

End BusinessCategories.

(** ** Context analyzer *)

Section ContextRules.
Context {py : PyBuiltins}.
Import RealTimeContextEngine AccessibilityIntelligenceEngine UnifiedRecommendationEngine.

(** X9. Whatever its category, a place is reported open from 9 to 20 and
    closed before 5 and after 23. *)
Theorem status_common_hours (category : string) (hour : Z) :
  ((9 <= hour <= 20)%Z -> _determine_status category hour = "open") /\
  ((hour < 5 \/ 23 < hour)%Z -> _determine_status category hour = "closed").
Proof.
  unfold _determine_status, between.
  split; intros H;
    destruct (contains "restaurant" category);
    [| destruct (contains "coffee" category);
       [| destruct (contains "gym" category);
          [| destruct (contains "library" category)]]
     | | destruct (contains "coffee" category);
       [| destruct (contains "gym" category);
          [| destruct (contains "library" category)]]];
    match goal with
    | |- (if (?a <=? ?x)%Z && (?y <=? ?b)%Z then _ else _) = _ =>
        destruct (Z.leb_spec a x); destruct (Z.leb_spec y b); cbn [andb];
        try reflexivity; lia
    end.
Qed.

Lemma random_choice_of_three {A : Type} (x y z default : A) (i : nat) :
  random_choice [x; y; z] i default = x \/
  random_choice [x; y; z] i default = y \/
  random_choice [x; y; z] i default = z.
Proof.
  unfold random_choice. cbn [length].
  pose proof (Nat.mod_upper_bound i 3 ltac:(discriminate)) as Hlt.
  destruct (i mod 3)%nat as [|[|[|k]]]; cbn [nth]; auto. lia.
Qed.

Lemma crowd_level_values (category : string) (hour : Z) (i : nat) :
  _estimate_crowd_level category hour i = "quiet" \/
  _estimate_crowd_level category hour i = "moderate" \/
  _estimate_crowd_level category hour i = "busy".
Proof.
  unfold _estimate_crowd_level.
  destruct (contains "restaurant" category);
    [|destruct (contains "coffee" category); [|destruct (contains "gym" category)]];
    try (destruct (hour_in hour _); [auto | destruct (hour_in hour _); auto]).
  apply random_choice_of_three.
Qed.

(** X10. In every result of the context analyzer the crowd level is quiet,
    moderate or busy, and the wait time goes with it: no wait when quiet,
    5-10 minutes when moderate, 10-15 minutes when busy. *)
Theorem crowd_level_and_wait_time (place_data : json) (w : World) (c : RealtimeContext) :
  analyze_context place_data w = Ok c ->
  (crowd_level c = "quiet" /\ estimated_wait_time c = "no wait") \/
  (crowd_level c = "moderate" /\ estimated_wait_time c = "5-10 minutes") \/
  (crowd_level c = "busy" /\ estimated_wait_time c = "10-15 minutes").
Proof.
  unfold analyze_context. intros H. bind_ok H. bind_ok H. apply Ok_inj in H. subst c.
  cbn [crowd_level estimated_wait_time].
  destruct (crowd_level_values x0 (hour_context w) (i_crowd w)) as [-> | [-> | ->]];
    [left | right; left | right; right]; split; reflexivity.
Qed.

(** X11. The context analyzer reports at most one live event, and none
    before 14 or after 19. *)
Theorem live_events_at_most_one (category : string) (hour : Z) :
  (length (_detect_events category hour) <= 1)%nat /\
  ((hour < 14 \/ 19 < hour)%Z -> _detect_events category hour = []).
Proof.
  unfold _detect_events, between, hour_in. cbn [existsb app]. split.
  - repeat match goal with
           | |- context [if ?c then _ else _] => destruct c
           end; cbn [length]; lia.
  - intros H.
    destruct (Z.leb_spec 14 hour); destruct (Z.leb_spec hour 16);
      destruct (Z.eqb_spec hour 18); destruct (Z.eqb_spec hour 19);
      destruct (Z.eqb_spec hour 15); destruct (Z.eqb_spec hour 16);
      try lia; cbn [andb orb]; rewrite ?andb_false_r; reflexivity.
Qed.

Lemma best_times_not_empty (category : string) : _suggest_best_times category <> [].
Proof.
  unfold _suggest_best_times.
  repeat match goal with
         | |- context [if ?c then _ else _] => destruct c
         end; discriminate.
Qed.

Lemma prefix_empty (s : string) : prefix "" s = true.
Proof. destruct s; reflexivity. Qed.

Lemma visit_strategy_prefix (c : RealtimeContext) (a : AccessibilityIntel) :
  best_visit_times c <> [] ->
  prefix "Best visit times: " (_create_visit_strategy c a) = true.
Proof.
  intros Hne. unfold _create_visit_strategy. cbv zeta.
  destruct (best_visit_times c) as [|t ts]; [contradiction|].
  destruct (_ && _); destruct (wheelchair_accessible a);
    cbn [app String.concat append prefix]; apply prefix_empty.
Qed.

(** X12. For every result of the context analyzer, the visit strategy of
    the synthesis begins with the best visit times: the fallback "Visit
    anytime based on your preference" is never used after the analyzer. *)
Theorem visit_strategy_starts_with_best_times
    (place_data : json) (w : World) (c : RealtimeContext) (a : AccessibilityIntel) :
  analyze_context place_data w = Ok c ->
  prefix "Best visit times: " (_create_visit_strategy c a) = true /\
  _create_visit_strategy c a <> "Visit anytime based on your preference".
Proof.
  intros H. assert (Hne : best_visit_times c <> []).
  { unfold analyze_context in H. bind_ok H. bind_ok H. apply Ok_inj in H. subst c.
    apply best_times_not_empty. }
  pose proof (visit_strategy_prefix c a Hne) as Hp. split; [exact Hp|].
  intros Heq. rewrite Heq in Hp. discriminate Hp.
Qed.

End ContextRules.

(** ** Accessibility features and recommendations *)

Section FeatureRules.
Context {py : PyBuiltins}.
Import AccessibilityIntelligenceEngine.

(** X13. Braille signage and a hearing loop are reported together or not at
    all, never from a draw; and when they are reported, every other feature
    is reported too. *)
Theorem hearing_loop_with_braille (categories : json) (w : World) (f : Features) :
  _analyze_accessibility_features categories w = Ok f ->
  hearing_loop f = braille_signage f /\
  (hearing_loop f = true ->
   ramp_access f = true /\ elevator f = true /\ accessible_restrooms f = true /\
   wide_entrances f = true /\ accessible_parking f = true).
Proof.
  unfold _analyze_accessibility_features, _default_features. intros H.
  destruct (negb (truthy categories));
    [apply Ok_inj in H; subst f; split; [reflexivity | discriminate]|].
  binds_ok H.
  destruct (contains "library" _);
    [|destruct (contains "restaurant" _); [|destruct (contains "gym" _)]];
    apply Ok_inj in H; subst f; cbn; split; try reflexivity; try discriminate.
  intros _. repeat split.
Qed.

(** X14. Without categories no recommendation is made, whatever the
    features are. With categories there is one mobility recommendation for
    each of ramp access, elevator and accessible restrooms that the place
    has, at most three sensory and at most two cognitive ones. *)
Theorem recommendations_count (categories : json) (f : Features) (r : Recommendations) :
  _generate_inclusive_recommendations categories f = Ok r ->
  (truthy categories = false ->
   mobility_friendly_areas r = [] /\ sensory_accommodations r = [] /\
   cognitive_support r = []) /\
  (truthy categories = true ->
   length (mobility_friendly_areas r)
   = (Nat.b2n (ramp_access f) + Nat.b2n (elevator f) + Nat.b2n (accessible_restrooms f))%nat /\
   (length (sensory_accommodations r) <= 3)%nat /\
   (length (cognitive_support r) <= 2)%nat).
Proof.
  unfold _generate_inclusive_recommendations. cbv zeta. intros H.
  destruct (truthy categories); cbn [negb] in H.
  - split; [discriminate|]. intros _. binds_ok H. apply Ok_inj in H. subst r.
    cbn [mobility_friendly_areas sensory_accommodations cognitive_support].
    destruct (ramp_access f), (elevator f), (accessible_restrooms f), (hearing_loop f),
      (contains "library" x1), (contains "restaurant" x1); cbn; repeat split; lia.
  - split; [|discriminate]. intros _. apply Ok_inj in H. subst r. repeat split.
Qed.

End FeatureRules.

(** ** Synthesis: the caps and the notes *)

Section SynthesisRules.
Context {py : PyBuiltins}.
Import BusinessIntelligenceEngine RealTimeContextEngine AccessibilityIntelligenceEngine
       UnifiedRecommendationEngine.

(** X15. The three caps never cut anything: the checks append at most four
    insights, three alternatives and three notes, so each list is returned
    whole. *)
Theorem caps_never_truncate
    (place_data : json) (b : BusinessIntel) (c : RealtimeContext) (a : AccessibilityIntel) :
  _generate_personalized_insights place_data b c a = insights_candidates place_data b c a /\
  _suggest_alternatives place_data b = alternatives_candidates place_data b /\
  _create_accessibility_notes a = notes_candidates a.
Proof.
  split; [|split].
  - unfold _generate_personalized_insights, insights_candidates. cbv zeta.
    destruct (Qle_bool 8.0 _); [|destruct (Qle_bool 6.0 _)];
      (destruct (crowd_level c =? "quiet")%string;
       [|destruct (crowd_level c =? "busy")%string]);
      destruct (wheelchair_accessible a); destruct (_ && _); reflexivity.
  - unfold _suggest_alternatives, alternatives_candidates. cbv zeta.
    destruct (py_get place_data "categories" (JArr [])) as [categories|]; [|reflexivity].
    cbn [bind]. destruct (negb (truthy categories)); [reflexivity|].
    destruct (py_getitem0 categories) as [first|]; [|reflexivity]. cbn [bind].
    destruct (py_get first "name" (JStr "")) as [cname|]; [|reflexivity]. cbn [bind].
    destruct (py_lower cname) as [label|]; [|reflexivity]. cbn [bind].
    destruct (contains "coffee" label); [reflexivity|].
    destruct (contains "restaurant" label); [reflexivity|].
    destruct (contains "gym" label); reflexivity.
  - unfold _create_accessibility_notes, notes_candidates. cbv zeta.
    destruct (wheelchair_accessible a); destruct (accessible_restrooms _);
      destruct (hearing_loop _); reflexivity.
Qed.

(** X16. The alternatives are all or nothing: every list the engine returns
    is empty or has exactly three suggestions. *)
Theorem alternatives_none_or_three
    (place_data : json) (b : BusinessIntel) (alternatives : list string) :
  _suggest_alternatives place_data b = Ok alternatives ->
  alternatives = [] \/ length alternatives = 3%nat.
Proof.
  unfold _suggest_alternatives, alternatives_candidates. cbv zeta. intros H.
  bind_ok H. apply Ok_inj in H. subst alternatives. bind_ok E.
  destruct (negb (truthy x0)); [apply Ok_inj in E; subst x; now left|].
  binds_ok E.
  destruct (contains "coffee" _);
    [|destruct (contains "restaurant" _); [|destruct (contains "gym" _)]];
    apply Ok_inj in E; subst x; cbn; auto.
Qed.

(** X17. The accessibility notes are never empty: they open with the
    sentence that goes with the wheelchair flag, followed by at most two
    more notes. *)
Theorem accessibility_notes_open_with_flag (a : AccessibilityIntel) :
  exists more,
    _create_accessibility_notes a
    = (if wheelchair_accessible a
       then "Wheelchair accessible with ramp access"
       else "Accessibility features may be limited - recommend calling ahead") :: more /\
    (length more <= 2)%nat.
Proof.
  unfold _create_accessibility_notes, notes_candidates. cbv zeta.
  destruct (wheelchair_accessible a); destruct (accessible_restrooms _);
    destruct (hearing_loop _); cbn; eexists; split; try reflexivity; cbn; lia.
Qed.

End SynthesisRules.

(** ** The endpoint: what a response depends on *)

Section ResponseDependencies.
Context {py : PyBuiltins}.
Import BusinessIntelligenceEngine RealTimeContextEngine AccessibilityIntelligenceEngine
       UnifiedRecommendationEngine Endpoint.

Lemma enhance_of_place (fields : list (string * json)) (w : World) :
  fields <> [] ->
  enhance_place_intelligence (JObj [("place", JObj fields)]) w
  = match
      intel <- run_engines (JObj fields) w ;;
      (let '(b, c, a, u) := intel in
       Ok (JObj [ ("business_intelligence", json_business b);
                  ("real_time_context", json_context c);
                  ("accessibility_intelligence", json_accessibility a);
                  ("unified_recommendations", json_unified u);
                  ("processing_time_ms",
                   JNum (py_round (elapsed_ms (clock_endpoint w)) 2));
                  ("data_sources",
                   json_strings ["foursquare"; "ml_models"; "accessibility_db";
                                 "real_time_feeds"]) ],
           200%Z))
    with
    | Ok response => response
    | Raise e =>
        (JObj [("error", JStr "Internal server error");
               ("message", JStr (exn_message e))], 500%Z)
    end.
Proof.
  intros Hne. unfold enhance_place_intelligence, enhance_try.
  change (py_get (JObj [("place", JObj fields)]) "place" (JObj [])) with (Ok (JObj fields)).
  cbn [truthy negb bind py_get]. destruct fields; [contradiction|]. reflexivity.
Qed.

Lemma run_engines_same_name_and_categories
    (fields fields' : list (string * json)) (w : World) :
  dict_get fields "name" (JStr "") = dict_get fields' "name" (JStr "") ->
  dict_get fields "categories" (JArr []) = dict_get fields' "categories" (JArr []) ->
  run_engines (JObj fields) w = run_engines (JObj fields') w.
Proof.
  intros Hn Hc.
  unfold run_engines, analyze_place, analyze_context, analyze_accessibility,
    generate_recommendations, _calculate_popularity_score, _suggest_alternatives,
    alternatives_candidates, _generate_personalized_insights, insights_candidates.
  cbn [py_get bind]. rewrite Hn, Hc. reflexivity.
Qed.

(** X18. The response is a function of the place's [name] and [categories]
    alone: two non-empty places that agree on these two keys get the same
    response, whatever their [location] and their other keys are. *)
Theorem response_ignores_other_keys (fields fields' : list (string * json)) (w : World) :
  fields <> [] -> fields' <> [] ->
  dict_get fields "name" (JStr "") = dict_get fields' "name" (JStr "") ->
  dict_get fields "categories" (JArr []) = dict_get fields' "categories" (JArr []) ->
  enhance_place_intelligence (JObj [("place", JObj fields)]) w
  = enhance_place_intelligence (JObj [("place", JObj fields')]) w.
Proof.
  intros Hne Hne' Hn Hc. rewrite !enhance_of_place by assumption.
  now rewrite (run_engines_same_name_and_categories fields fields' w Hn Hc).
Qed.

Lemma run_engines_same_first_name
    (fields fields' first first' : list (string * json)) (rest rest' : list json)
    (w : World) :
  dict_get fields "name" (JStr "") = dict_get fields' "name" (JStr "") ->
  dict_get fields "categories" (JArr []) = JArr (JObj first :: rest) ->
  dict_get fields' "categories" (JArr []) = JArr (JObj first' :: rest') ->
  dict_get first "name" (JStr "") = dict_get first' "name" (JStr "") ->
  run_engines (JObj fields) w = run_engines (JObj fields') w.
Proof.
  intros Hn Hc Hc' Hfirst.
  unfold run_engines, analyze_place, analyze_context, analyze_accessibility,
    generate_recommendations, _calculate_popularity_score, _suggest_alternatives,
    alternatives_candidates, _generate_personalized_insights, insights_candidates,
    BusinessIntelligenceEngine._get_primary_category,
    RealTimeContextEngine._get_primary_category,
    _calculate_accessibility_score, _analyze_accessibility_features,
    _generate_inclusive_recommendations.
  cbn [py_get bind]. rewrite Hn, Hc, Hc'.
  cbn [truthy negb py_getitem0 py_get bind]. rewrite Hfirst. reflexivity.
Qed.

(** X19. Of the categories only the name of the first one counts: two
    places with the same [name] whose first categories have the same name
    get the same response, whatever the other categories and the other
    keys of the first one are. *)
Theorem response_reads_first_category_name
    (fields fields' first first' : list (string * json)) (rest rest' : list json)
    (w : World) :
  dict_get fields "name" (JStr "") = dict_get fields' "name" (JStr "") ->
  dict_get fields "categories" (JArr []) = JArr (JObj first :: rest) ->
  dict_get fields' "categories" (JArr []) = JArr (JObj first' :: rest') ->
  dict_get first "name" (JStr "") = dict_get first' "name" (JStr "") ->
  enhance_place_intelligence (JObj [("place", JObj fields)]) w
  = enhance_place_intelligence (JObj [("place", JObj fields')]) w.
Proof.
  intros Hn Hc Hc' Hfirst.
  assert (Hne : fields <> []) by (intros ->; discriminate Hc).
  assert (Hne' : fields' <> []) by (intros ->; discriminate Hc').
  rewrite !enhance_of_place by assumption.
  now rewrite (run_engines_same_first_name _ _ _ _ _ _ w Hn Hc Hc' Hfirst).
Qed.

End ResponseDependencies.

(** ** The library of the specification, end to end *)

Section LibraryNotes.
Context {py : PyBuiltins}.
Import AccessibilityIntelligenceEngine UnifiedRecommendationEngine.

(** X20. For a place whose primary category mentions a library, with a draw
    in [0, 1), every feature is reported, and the synthesis writes exactly
    three accessibility notes: wheelchair access, accessible restrooms and
    the hearing loop. *)
Theorem library_notes
    (fields first : list (string * json)) (rest : list json) (label n : string)
    (w : World) :
  dict_get fields "name" (JStr "") = JStr n ->
  dict_get fields "categories" (JArr []) = JArr (JObj first :: rest) ->
  dict_get first "name" (JStr "") = JStr label ->
  contains "library" (str_lower label) = true ->
  unit_interval (u_accessibility w) ->
  exists a,
    analyze_accessibility (JObj fields) w = Ok a /\
    features a
    = {| ramp_access := true; elevator := true; accessible_restrooms := true;
         braille_signage := true; hearing_loop := true; wide_entrances := true;
         accessible_parking := true |} /\
    _create_accessibility_notes a
    = ["Wheelchair accessible with ramp access";
       "Accessible restroom facilities available";
       "Hearing loop system available for hearing aid users"].
Proof.
  intros Hn Hcat Hname Hlib Hu.
  assert (Hor : contains "library" (str_lower label)
                || contains "hospital" (str_lower label) = true) by now rewrite Hlib.
  unfold analyze_accessibility. cbn [py_get bind]. rewrite Hn, Hcat.
  destruct (_calculate_accessibility_score (JArr (JObj first :: rest)) (JStr n)
              (u_accessibility w)) as [score|e] eqn:Hs.
  - pose proof (library_score _ _ _ _ _ _ Hname Hor Hu Hs) as Hscore.
    unfold _analyze_accessibility_features, _generate_inclusive_recommendations.
    cbn [truthy negb py_getitem0 py_get bind]. rewrite Hname. cbn [py_lower bind].
    rewrite Hlib. cbn [bind]. eexists. split; [reflexivity|].
    cbn [features]. split; [reflexivity|].
    unfold _create_accessibility_notes, notes_candidates.
    cbn [wheelchair_accessible features accessible_restrooms hearing_loop].
    assert (Hq : Qle_bool 7.0 score = true) by (apply Qle_bool_iff; lra).
    rewrite Hq. reflexivity.
  - exfalso. unfold _calculate_accessibility_score in Hs.
    cbn [truthy negb py_getitem0 py_get bind] in Hs. rewrite Hname in Hs.
    cbn [py_lower bind] in Hs. discriminate Hs.
Qed.

End LibraryNotes.

(** ** The further properties at sample requests *)

Lemma business_scores_floor_witness :
  exists b,
    BusinessIntelligenceEngine.analyze_place (py := AsciiBuiltins.builtins) starbucks
      morning = Ok b /\
    4 <= BusinessIntelligenceEngine.popularity_score b /\
    2.5 <= BusinessIntelligenceEngine.sentiment_score b.
Proof.
  eexists. split; [vm_compute; reflexivity|].
  apply (@business_scores_floor AsciiBuiltins.builtins starbucks morning).
  - unfold valid_world, unit_interval. cbn. lra.
  - vm_compute. reflexivity.
Defined.

Lemma pipeline_confidence_range_witness :
  exists b c a u,
    Endpoint.run_engines (py := AsciiBuiltins.builtins) starbucks morning
    = Ok (b, c, a, u) /\
    UnifiedRecommendationEngine.confidence_weights b c a
    = [0.8; RealTimeContextEngine.confidence_score c; 0.7] /\
    0.73 <= UnifiedRecommendationEngine.confidence_score u /\
    UnifiedRecommendationEngine.confidence_score u <= 0.82.
Proof.
  eexists. eexists. eexists. eexists. split; [vm_compute; reflexivity|].
  apply (@pipeline_confidence_range AsciiBuiltins.builtins starbucks morning).
  - unfold valid_world, unit_interval. cbn. lra.
  - vm_compute. reflexivity.
Defined.

Lemma library_or_hospital_is_accessible_witness :
  exists a,
    AccessibilityIntelligenceEngine.analyze_accessibility (py := AsciiBuiltins.builtins)
      city_library morning = Ok a /\
    AccessibilityIntelligenceEngine.wheelchair_accessible a = true /\
    7 <= AccessibilityIntelligenceEngine.accessibility_score a.
Proof.
  apply (@library_or_hospital_is_accessible AsciiBuiltins.builtins
           [("name", JStr "City Library");
            ("categories", JArr [JObj [("name", JStr "Library")]])]
           [("name", JStr "Library")] [] "Library" "City Library" morning);
    try reflexivity.
  unfold unit_interval. cbn. lra.
Defined.

Lemma plain_place_is_not_accessible_witness :
  exists a,
    AccessibilityIntelligenceEngine.analyze_accessibility (py := AsciiBuiltins.builtins)
      corner_bakery morning = Ok a /\
    AccessibilityIntelligenceEngine.wheelchair_accessible a = false /\
    AccessibilityIntelligenceEngine.accessibility_score a <= 6.
Proof.
  apply (@plain_place_is_not_accessible AsciiBuiltins.builtins
           [("name", JStr "Corner Bakery");
            ("categories", JArr [JObj [("name", JStr "Bakery")]])]
           [("name", JStr "Bakery")] [] "Bakery" "Corner Bakery" morning);
    try reflexivity.
  unfold unit_interval. cbn. lra.
Defined.

Lemma no_categories_business_defaults_witness :
  exists b,
    BusinessIntelligenceEngine.analyze_place (py := AsciiBuiltins.builtins)
      (JObj [("name", JStr "Somewhere")]) morning = Ok b /\
    BusinessIntelligenceEngine.specialties b = [] /\
    BusinessIntelligenceEngine.ideal_for b = [] /\
    BusinessIntelligenceEngine.price_range b = "unknown" /\
    BusinessIntelligenceEngine.atmosphere b = "unknown" /\
    BusinessIntelligenceEngine.trending_score b == 5.0.
Proof.
  apply (@no_categories_business_defaults AsciiBuiltins.builtins
           [("name", JStr "Somewhere")] "Somewhere" morning); reflexivity.
Defined.

Lemma coffee_restaurant_precedence_witness :
  BusinessIntelligenceEngine._get_primary_category (py := AsciiBuiltins.builtins)
    (JArr [JObj [("name", JStr "Coffee Restaurant")]]) = Ok "coffee" /\
  RealTimeContextEngine._determine_status "coffee restaurant" 22 = "open" /\
  RealTimeContextEngine._determine_status "coffee" 22 = "closed".
Proof.
  destruct (@coffee_restaurant_precedence AsciiBuiltins.builtins
              [("name", JStr "Coffee Restaurant")] [] "Coffee Restaurant" 22 0
              eq_refl eq_refl eq_refl) as (Hb & _ & Hstatus & _).
  split; [exact Hb|]. split; [exact Hstatus | reflexivity].
Defined.

Lemma status_common_hours_witness :
  RealTimeContextEngine._determine_status "library" 10 = "open" /\
  RealTimeContextEngine._determine_status "gym" 3 = "closed".
Proof.
  split.
  - apply (proj1 (status_common_hours "library" 10)). lia.
  - apply (proj2 (status_common_hours "gym" 3)). lia.
Defined.

Lemma crowd_level_and_wait_time_witness :
  exists c,
    RealTimeContextEngine.analyze_context (py := AsciiBuiltins.builtins) starbucks
      morning = Ok c /\
    ((RealTimeContextEngine.crowd_level c = "quiet" /\
      RealTimeContextEngine.estimated_wait_time c = "no wait") \/
     (RealTimeContextEngine.crowd_level c = "moderate" /\
      RealTimeContextEngine.estimated_wait_time c = "5-10 minutes") \/
     (RealTimeContextEngine.crowd_level c = "busy" /\
      RealTimeContextEngine.estimated_wait_time c = "10-15 minutes")).
Proof.
  eexists. split; [vm_compute; reflexivity|].
  apply (@crowd_level_and_wait_time AsciiBuiltins.builtins starbucks morning).
  vm_compute. reflexivity.
Defined.

Lemma live_events_at_most_one_witness :
  RealTimeContextEngine._detect_events "library gym" 10 = [].
Proof.
  apply (proj2 (live_events_at_most_one "library gym" 10)). lia.
Defined.

Lemma visit_strategy_starts_with_best_times_witness :
  exists c,
    RealTimeContextEngine.analyze_context (py := AsciiBuiltins.builtins) city_library
      morning = Ok c /\
    prefix "Best visit times: "
      (UnifiedRecommendationEngine._create_visit_strategy c accessible_intel) = true /\
    UnifiedRecommendationEngine._create_visit_strategy c accessible_intel
    <> "Visit anytime based on your preference".
Proof.
  eexists. split; [vm_compute; reflexivity|].
  apply (@visit_strategy_starts_with_best_times AsciiBuiltins.builtins city_library
           morning).
  vm_compute. reflexivity.
Defined.

Lemma hearing_loop_with_braille_witness :
  exists f,
    AccessibilityIntelligenceEngine._analyze_accessibility_features
      (py := AsciiBuiltins.builtins) (JArr [JObj [("name", JStr "Library")]]) morning
    = Ok f /\
    AccessibilityIntelligenceEngine.hearing_loop f
    = AccessibilityIntelligenceEngine.braille_signage f /\
    (AccessibilityIntelligenceEngine.hearing_loop f = true ->
     AccessibilityIntelligenceEngine.ramp_access f = true /\
     AccessibilityIntelligenceEngine.elevator f = true /\
     AccessibilityIntelligenceEngine.accessible_restrooms f = true /\
     AccessibilityIntelligenceEngine.wide_entrances f = true /\
     AccessibilityIntelligenceEngine.accessible_parking f = true).
Proof.
  eexists. split; [vm_compute; reflexivity|].
  apply (@hearing_loop_with_braille AsciiBuiltins.builtins
           (JArr [JObj [("name", JStr "Library")]]) morning).
  vm_compute. reflexivity.
Defined.

Lemma recommendations_count_witness :
  exists r,
    AccessibilityIntelligenceEngine._generate_inclusive_recommendations
      (py := AsciiBuiltins.builtins) (JArr [JObj [("name", JStr "Library")]])
      (AccessibilityIntelligenceEngine.features accessible_intel) = Ok r /\
    length (AccessibilityIntelligenceEngine.mobility_friendly_areas r) = 3%nat /\
    (length (AccessibilityIntelligenceEngine.sensory_accommodations r) <= 3)%nat /\
    (length (AccessibilityIntelligenceEngine.cognitive_support r) <= 2)%nat.
Proof.
  eexists. split; [vm_compute; reflexivity|].
  apply (proj2 (@recommendations_count AsciiBuiltins.builtins
                  (JArr [JObj [("name", JStr "Library")]])
                  (AccessibilityIntelligenceEngine.features accessible_intel) _
                  ltac:(vm_compute; reflexivity))).
  reflexivity.
Defined.

Lemma alternatives_none_or_three_witness :
  exists alternatives,
    UnifiedRecommendationEngine._suggest_alternatives (py := AsciiBuiltins.builtins)
      starbucks popular_business = Ok alternatives /\
    (alternatives = [] \/ length alternatives = 3%nat).
Proof.
  eexists. split; [vm_compute; reflexivity|].
  apply (@alternatives_none_or_three AsciiBuiltins.builtins starbucks popular_business).
  vm_compute. reflexivity.
Defined.

Lemma response_ignores_other_keys_witness :
  Endpoint.enhance_place_intelligence (py := AsciiBuiltins.builtins)
    (JObj [("place", JObj starbucks_fields)]) morning
  = Endpoint.enhance_place_intelligence (py := AsciiBuiltins.builtins)
      (JObj [("place",
              JObj (("location", JObj [("lat", JNum 40.7)]) :: starbucks_fields))])
      morning.
Proof.
  apply (@response_ignores_other_keys AsciiBuiltins.builtins starbucks_fields
           (("location", JObj [("lat", JNum 40.7)]) :: starbucks_fields) morning);
    try discriminate; reflexivity.
Defined.

Lemma response_reads_first_category_name_witness :
  Endpoint.enhance_place_intelligence (py := AsciiBuiltins.builtins)
    (JObj [("place", JObj starbucks_fields)]) morning
  = Endpoint.enhance_place_intelligence (py := AsciiBuiltins.builtins)
      (JObj [("place", JObj starbucks_located_fields)]) morning.
Proof.
  apply (@response_reads_first_category_name AsciiBuiltins.builtins starbucks_fields
           starbucks_located_fields
           [("name", JStr "Coffee Shop")]
           [("id", JNum 13035); ("name", JStr "Coffee Shop")]
           [] [JObj [("name", JStr "Bakery")]] morning); reflexivity.
Defined.

Lemma library_notes_witness :
  exists a,
    AccessibilityIntelligenceEngine.analyze_accessibility (py := AsciiBuiltins.builtins)
      city_library morning = Ok a /\
    AccessibilityIntelligenceEngine.features a
    = AccessibilityIntelligenceEngine.features accessible_intel /\
    UnifiedRecommendationEngine._create_accessibility_notes a
    = ["Wheelchair accessible with ramp access";
       "Accessible restroom facilities available";
       "Hearing loop system available for hearing aid users"].
Proof.
  apply (@library_notes AsciiBuiltins.builtins
           [("name", JStr "City Library");
            ("categories", JArr [JObj [("name", JStr "Library")]])]
           [("name", JStr "Library")] [] "Library" "City Library" morning);
    try reflexivity.
  unfold unit_interval. cbn. lra.
Defined.
